(** * armageddon/solver.py: atmospheric entry solver, energy profile and outcome

    A shallow embedding of [src/armageddon/solver.py] (class [Planet]) and the
    properties of its methods.

    Conventions of the embedding.
    - A Python [float] is modelled by a real number ([R]): rounding, overflow,
      infinities and NaN are outside the model, and where the source divides,
      the statements that depend on the value of a quotient are about
      non-zero divisors.
    - A Python list is a [list]: [l.append(x)] is [l ++ [x]], [l[-1]] is
      [py_last l], [l[:-1]] is [but_last l] and [l[1:]] is [from_1 l].
    - A pandas [DataFrame] is a row count (its [RangeIndex]) and an ordered
      association list of named columns. Data frames are mutable objects:
      they live in a [store] and are passed by address.
    - A Python exception is a value of [exn]; a method that can raise returns
      a [res]. Text written by [print] is returned as a list of lines.
    - The [while True] loops of the solvers take a [fuel] argument: [None]
      means the loop did not reach its [break] within [fuel] iterations.
    - The attributes carry one ghost field, the history of the evaluations
      of the derivatives; the program has no such field and the model never
      reads it ([history_is_ghost]). *)

From Stdlib Require Import Reals Lra Lia ZArith String List.
From stdpp Require Import base option list gmap strings.

Local Open Scope R_scope.

(** ** Exceptions and results *)

Inductive exn : Type :=
  | NotImplementedError
  | FileNotFoundError
  | PermissionError
  | ParserError
  | IndexError
  | KeyError
  | TypeError
  | ValueError.

Inductive res (A : Type) : Type :=
  | Ok (a : A)
  | Raise (e : exn).
Arguments Ok {A} a.
Arguments Raise {A} e.

Definition bind {A B : Type} (m : res A) (k : A -> res B) : res B :=
  match m with
  | Ok a => k a
  | Raise e => Raise e
  end.

Notation "'do' x <- m ; k" := (bind m (fun x => k))
  (at level 10, x name, m at level 100, k at level 200).

(** ** Python and numpy helpers *)

(** [l[-1]] on a list that the solver never leaves empty. *)
Definition py_last (l : list R) : R := List.last l 0.

(** [l[:-1]]. *)
Definition but_last {A : Type} (l : list A) : list A := take (length l - 1) l.

(** [l[1:]]. *)
Definition from_1 {A : Type} (l : list A) : list A := drop 1 l.

(** Python's built-in [max(a, b)]: the first argument unless the second is
    strictly greater. *)
Definition py_max (a b : R) : R := if Rlt_dec a b then b else a.

(** ** Data frames *)

Record DataFrame : Type := mkDataFrame {
  nrows : nat;                          (* len(df): the RangeIndex 0..nrows-1 *)
  columns : list (string * list R)      (* df.columns with their values, in order *)
}.

Fixpoint assoc (name : string) (cols : list (string * list R)) : option (list R) :=
  match cols with
  | [] => None
  | (k, v) :: cols' => if String.eqb k name then Some v else assoc name cols'
  end.

(** [df[name]]: the column, or [KeyError]. *)
Definition getitem (df : DataFrame) (name : string) : res (list R) :=
  match assoc name (columns df) with
  | Some v => Ok v
  | None => Raise KeyError
  end.

(** [series[i]] by label on a [RangeIndex]. *)
Definition at_label (s : list R) (i : nat) : res R :=
  match s !! i with
  | Some x => Ok x
  | None => Raise KeyError
  end.

(** [df.insert(loc, column, value)]: refuses a duplicate column name and a
    value whose length differs from the index. *)
Definition df_insert (df : DataFrame) (loc : nat) (column : string)
    (value : list R) : res DataFrame :=
  match assoc column (columns df) with
  | Some _ => Raise ValueError
  | None =>
      if negb (length value =? nrows df)%nat then Raise ValueError
      else if (length (columns df) <? loc)%nat then Raise IndexError
      else Ok {| nrows := nrows df;
                 columns := take loc (columns df)
                              ++ (column, value) :: drop loc (columns df) |}
  end.

(** Every column has one value per row. *)
Definition df_wf (df : DataFrame) : Prop :=
  Forall (fun c => length (snd c) = nrows df) (columns df).

(** Objects are addressed by location; the store maps the live data frames. *)
Definition loc := nat.
Abbreviation store := (gmap loc DataFrame).

Definition deref (sigma : store) (l : loc) : res DataFrame :=
  match sigma !! l with
  | Some df => Ok df
  | None => Raise TypeError
  end.

(** ** [Planet.calculate_energy] *)

(** [0.5 * mass * velocity**2], element by element. *)
Definition kinetic (mass velocity : list R) : list R :=
  zip_with (fun m v => 0.5 * m * v ^ 2) mass velocity.

(** The value inserted as column [dedz] (lines 198-206 of the source). *)
Definition dedz_values (mass velocity altitude : list R) : list R :=
  let dedz := kinetic mass velocity in
  let temp := zip_with Rdiv
                (zip_with Rminus (from_1 dedz) (but_last dedz))
                (zip_with Rminus (but_last altitude) (from_1 altitude)) in
  let temp := map (fun t => t / (4.184 * 10 ^ 9)) temp in
  let temp := 0 :: temp in
  map Ropp temp.

Definition calculate_energy (sigma : store) (result : loc)
    : res (store * loc)%type :=
  do df <- deref sigma result;
  do mass <- getitem df "mass";
  do velocity <- getitem df "velocity";
  do altitude <- getitem df "altitude";
  do df' <- df_insert df (length (columns df)) "dedz"
              (dedz_values mass velocity altitude);
  Ok (<[result := df']> sigma, result).

(** ** [Planet.analyse_outcome] *)

(** [Series.idxmax()] on a [RangeIndex]: the label of the first occurrence of
    the maximum; [ValueError] on an empty series. *)
Fixpoint argmax_from (best_i : nat) (best : R) (i : nat) (l : list R) : nat :=
  match l with
  | [] => best_i
  | x :: l' =>
      if Rlt_dec best x then argmax_from i x (S i) l'
      else argmax_from best_i best (S i) l'
  end.

Definition idxmax (s : list R) : res nat :=
  match s with
  | [] => Raise ValueError
  | x :: l => Ok (argmax_from 0 x 1 l)
  end.

(** The dictionary returned by [analyse_outcome]. *)
Record Outcome : Type := mkOutcome {
  outcome : string;
  burst_peak_dedz : R;
  burst_altitude : R;
  burst_distance : R;
  burst_energy : R
}.

Definition analyse_outcome (sigma : store) (result : loc) : res Outcome :=
  do df <- deref sigma result;
  do dedz <- getitem df "dedz";
  do burstidx <- idxmax dedz;
  do mass <- getitem df "mass";
  do velocity <- getitem df "velocity";
  do m0 <- at_label mass 0;
  do v0 <- at_label velocity 0;
  let initial_energy := 0.5 * m0 * v0 ^ 2 / (4.184 * 10 ^ 12) in
  do mb <- at_label mass burstidx;
  do vb <- at_label velocity burstidx;
  let burstenergy := 0.5 * mb * vb ^ 2 / (4.184 * 10 ^ 12) in
  do branch <-
    (if (Z.of_nat burstidx =? Z.of_nat (nrows df) - 1)%Z then
       Ok ("Cratering"%string,
           py_max burstenergy (initial_energy - burstenergy), 0)
     else
       do altitude <- getitem df "altitude";
       do zb <- at_label altitude burstidx;
       Ok ("Airburst"%string, initial_energy - burstenergy, zb));
  let '(kind, burstenergy, burst_altitude) := branch in
  do peak <- at_label dedz burstidx;
  do distance <- getitem df "distance";
  do xb <- at_label distance burstidx;
  Ok {| outcome := kind;
        burst_peak_dedz := peak;
        burst_altitude := burst_altitude;
        burst_distance := xb;
        burst_energy := burstenergy |}.

(** ** The planet and its atmosphere *)

Record Planet : Type := mkPlanet {
  Cd : R; Ch : R; Q : R; Cl : R; alpha : R; Rp : R; g : R; H : R; rho0 : R;
  atmos_filename : string;
  rhoa : R -> R
}.

(** What [pd.read_csv(path)] gives the parsing loop: an exception, or the
    rows of the first column, each already split and evaluated to numbers. *)
Definition filesystem : Type := string -> res (list (list R)).

(** The loop filling [X] and [Y] (lines 303-306): [temp[0]] and [temp[1]]. *)
Fixpoint read_rows (data : list (list R)) (X Y : list R)
    : res (list R * list R)%type :=
  match data with
  | [] => Ok (X, Y)
  | temp :: data' =>
      match temp with
      | x :: y :: _ => read_rows data' (X ++ [x]) (Y ++ [y])
      | _ => Raise IndexError
      end
  end.

(** The closure returned by [create_tabular_density] (lines 308-315): it has
    [X] and [Y] in scope and does not read them. *)
Definition tabular_density (X Y : list R) (x : R) : R :=
  1.225 - 9.910220744570666e-05 * x + 1.0633480000486046e-09 * x ^ 2
  + 4.098166536722918e-14 * x ^ 3 + 1.0285099346022191e-17 * x ^ 4
  - 1.045342967336349e-21 * x ^ 5 + 4.396108172607025e-26 * x ^ 6
  - 1.0712304649951357e-30 * x ^ 7 + 1.657059541531033e-35 * x ^ 8
  - 1.6597297898210513e-40 * x ^ 9 + 1.0474179820376901e-45 * x ^ 10
  - 3.7975400341113775e-51 * x ^ 11 + 6.044604125297617e-57 * x ^ 12.

Definition create_tabular_density (fs : filesystem) (atmos_filename : string)
    : res (R -> R) :=
  do data <- fs atmos_filename;
  do XY <- read_rows data [] [];
  Ok (tabular_density (fst XY) (snd XY)).

(** A call [self.create_tabular_density(keyword=value)]. The method's only
    parameter is named [atmos_filename] (line 286); a call that passes
    another keyword raises [TypeError] before the body runs. *)
Definition call_create_tabular_density (fs : filesystem)
    (keyword value : string) : res (R -> R) :=
  if String.eqb keyword "atmos_filename" then create_tabular_density fs value
  else Raise TypeError.

(** The two lines printed by the [except NotImplementedError] handler. *)
Definition atmos_warning (atmos_func : string) : list string :=
  [("atmos_func " ++ atmos_func ++ " not implemented yet.")%string;
   "Falling back to constant density atmosphere for now"%string].

(** [Planet.__init__]: the printed lines and the object, or the exception
    that leaves the constructor. The placeholders [-1] given to [velocity],
    [mass], ... are overwritten by the solvers before they are read; the
    attributes they stand for live in [Attrs] below. *)
Definition Planet_init (fs : filesystem) (atmos_func atmos_filename : string)
    (Cd Ch Q Cl alpha Rp g H rho0 : R) : list string * res Planet :=
  let make f := mkPlanet Cd Ch Q Cl alpha Rp g H rho0 atmos_filename f in
  let attempt : res (R -> R) :=
    if String.eqb atmos_func "exponential" then
      Ok (fun x => rho0 * exp (- x / H))
    else if String.eqb atmos_func "tabular" then
      (* line 84: self.create_tabular_density(filename=atmos_filename) *)
      call_create_tabular_density fs "filename" atmos_filename
    else if String.eqb atmos_func "constant" then
      Ok (fun x => rho0)
    else Raise NotImplementedError in
  match attempt with
  | Ok f => ([], Ok (make f))
  | Raise NotImplementedError =>
      (atmos_warning atmos_func, Ok (make (fun x => rho0)))
  | Raise e => ([], Raise e)
  end.

(** The spec's tabular density, for comparison with [tabular_density]: linear
    interpolation between the two bracketing entries, 0 beyond the last one
    (this is also the commented-out version at lines 276-284). *)
Fixpoint first_ge (X : list R) (x : R) (i : nat) : nat :=
  match X with
  | [] => i - 1
  | xi :: X' => if Rge_dec xi x then i else first_ge X' x (S i)
  end.

Definition spec_tabular_density (X Y : list R) (x : R) : R :=
  if Rgt_dec x (py_last X) then 0
  else
    let i := first_ge X x 0 in
    let j := (if (i =? 0)%nat then length X - 1 else i - 1)%nat in
    (x - nth j X 0) / (nth i X 0 - nth j X 0) * (nth i Y 0 - nth j Y 0)
    + nth j Y 0.

(** ** The solver's attributes *)

(** One evaluation of the derivatives, as far as the burst index is
    concerned. This record is ghost: the program keeps no such history; the
    model appends one entry per evaluation so that statements can speak of
    "the first evaluation at which ...". Nothing reads it back. *)
Record Eval : Type := mkEval {
  ev_velocity : R;     (* the velocity the derivatives are evaluated at *)
  ev_ram : R;          (* rhoa(altitude) * velocity**2 at this evaluation *)
  ev_strength : R;     (* self.strength *)
  ev_len : nat;        (* len(self.distance) at this evaluation *)
  ev_before : Z;       (* self.burstpoint on entry *)
  ev_after : Z         (* self.burstpoint on exit *)
}.

(** The attributes of [self] that [solve_atmospheric_entry] and the two
    solvers assign. *)
Record Attrs : Type := mkAttrs {
  strength : R;
  density : R;
  burstpoint : Z;
  velocity : list R;
  mass : list R;
  angle : list R;
  altitude : list R;
  distance : list R;
  radius : list R;
  alltimestep : list R;
  evals : list Eval    (* ghost *)
}.

(** The burst test shared by both derivative codes (lines 428-433 and
    493-499): the new [burstpoint] and [drdt]. *)
Definition burst_test (self : Planet) (s : Attrs) (rho ram v : R) : Z * R :=
  if Rgt_dec ram (strength s) then
    ((if (burstpoint s =? -1)%Z then Z.of_nat (length (distance s))
      else burstpoint s),
     sqrt (7 * rho * alpha self / 2 / density s) * v)
  else (burstpoint s, 0).

Definition record_eval (s : Attrs) (v ram : R) (bp : Z) : Attrs :=
  mkAttrs (strength s) (density s) bp
    (velocity s) (mass s) (angle s) (altitude s) (distance s) (radius s)
    (alltimestep s)
    (evals s ++ [mkEval v ram (strength s) (length (distance s))
                   (burstpoint s) bp]).

(** ** Runge-Kutta *)

(** The numpy arrays of six numbers: angle, radius, altitude, velocity, mass,
    distance. *)
Definition vec6 : Type := (R * R * R * R * R * R)%type.

Definition vadd (a b : vec6) : vec6 :=
  let '(a1, a2, a3, a4, a5, a6) := a in
  let '(b1, b2, b3, b4, b5, b6) := b in
  (a1 + b1, a2 + b2, a3 + b3, a4 + b4, a5 + b5, a6 + b6).

(** [c * a]. *)
Definition vscale (c : R) (a : vec6) : vec6 :=
  let '(a1, a2, a3, a4, a5, a6) := a in
  (c * a1, c * a2, c * a3, c * a4, c * a5, c * a6).

(** [a * c] and [a / c]. *)
Definition vtimes (a : vec6) (c : R) : vec6 :=
  let '(a1, a2, a3, a4, a5, a6) := a in
  (a1 * c, a2 * c, a3 * c, a4 * c, a5 * c, a6 * c).

Definition vdiv (a : vec6) (c : R) : vec6 :=
  let '(a1, a2, a3, a4, a5, a6) := a in
  (a1 / c, a2 / c, a3 / c, a4 / c, a5 / c, a6 / c).

Definition calculator_rk4 (self : Planet) (s : Attrs) (variables : vec6)
    : Attrs * vec6 :=
  let '(angle, radius, altitude, velocity, mass, _) := variables in
  let cos_theta := cos angle in
  let sin_theta := sin angle in
  let area := PI * radius ^ 2 in
  let rhoa_ := rhoa self altitude in
  let rhoAv := rhoa_ * area * velocity in
  let dvdt := - Cd self * rhoAv * velocity / (2 * mass) + g self * sin_theta in
  let dmdt := - Ch self * rhoAv * velocity ^ 2 / (2 * Q self) in
  let dthetadt := - Cl self * rhoAv / (2 * mass)
                  + g self * cos_theta / velocity
                  - velocity * cos_theta / (Rp self + altitude) in
  let dzdt := - velocity * sin_theta in
  let dxdt := velocity * cos_theta / (1 + altitude / Rp self) in
  let ram := rhoa self altitude * velocity ^ 2 in
  let '(bp, drdt) := burst_test self s rhoa_ ram velocity in
  (record_eval s velocity ram bp, (dthetadt, drdt, dzdt, dvdt, dmdt, dxdt)).

Definition RK4_helper (self : Planet) (s : Attrs) (timestep : R)
    : Attrs * vec6 :=
  let variables := (py_last (angle s), py_last (radius s),
                    py_last (altitude s), py_last (velocity s),
                    py_last (mass s), py_last (distance s)) in
  let '(s, k1) := calculator_rk4 self s variables in
  let '(s, k2) :=
    calculator_rk4 self s (vadd variables (vscale (0.5 * timestep) k1)) in
  let '(s, k3) :=
    calculator_rk4 self s (vadd variables (vscale (0.5 * timestep) k2)) in
  let '(s, k4) :=
    calculator_rk4 self s (vadd variables (vscale timestep k3)) in
  let change :=
    vdiv (vtimes (vadd (vadd (vadd k1 (vscale 2 k2)) (vscale 2 k3)) k4)
            timestep) 6 in
  (s, change).

(** The test that ends both loops (lines 366-368 and 507-509). *)
Definition Rle_b (x y : R) : bool := if Rle_dec x y then true else false.
Definition Rge_b (x y : R) : bool := if Rge_dec x y then true else false.

Definition should_break (s : Attrs) (init_altitude : R) : bool :=
  Rle_b (py_last (altitude s)) 0 || Rle_b (py_last (mass s)) 0
  || Rle_b (py_last (radius s)) 0 || Rle_b (py_last (velocity s)) 0
  || Rge_b (py_last (altitude s)) init_altitude.

(** [while True: body; if test: break], bounded by [fuel]. *)
Fixpoint do_while {S : Type} (body : S -> S) (test : S -> bool) (fuel : nat)
    (s : S) : option S :=
  match fuel with
  | O => None
  | Datatypes.S fuel' =>
      let s' := body s in
      if test s' then Some s' else do_while body test fuel' s'
  end.

(** The seven [append]s of a loop body. *)
Definition append_row (s : Attrs) (v m z theta x r t : R) : Attrs :=
  mkAttrs (strength s) (density s) (burstpoint s)
    (velocity s ++ [v]) (mass s ++ [m]) (angle s ++ [theta])
    (altitude s ++ [z]) (distance s ++ [x]) (radius s ++ [r])
    (alltimestep s ++ [t]) (evals s).

(** The body of the loop at lines 358-365. *)
Definition RK4_body (self : Planet) (dt timestep : R) (s : Attrs) : Attrs :=
  let '(s, (ctheta, cr, cz, cv, cm, cx)) := RK4_helper self s dt in
  append_row s
    (cv + py_last (velocity s)) (cm + py_last (mass s))
    (cz + py_last (altitude s)) (ctheta + py_last (angle s))
    (cx + py_last (distance s)) (cr + py_last (radius s))
    (timestep + py_last (alltimestep s)).

(** Lines 349-356: the initial one-element lists. *)
Definition initial_lists (s : Attrs) (radius velocity angle init_altitude : R)
    : Attrs :=
  mkAttrs (strength s) (density s) (burstpoint s)
    [velocity] [4 / 3 * PI * radius ^ 3 * density s] [angle]
    [init_altitude] [0] [radius] [0] (evals s).

Definition solve_atmospheric_entry_RK4 (fuel : nat) (self : Planet)
    (s : Attrs) (radius velocity angle init_altitude dt : R) : option Attrs :=
  let s := initial_lists s radius velocity angle init_altitude in
  let timestep := dt in
  do_while (RK4_body self dt timestep)
    (fun s => should_break s init_altitude) fuel s.

(** ** Forward Euler *)

(** The body of the loop at lines 478-506. *)
Definition FE_body (self : Planet) (timestep : R) (s : Attrs) : Attrs :=
  let cos_theta := cos (py_last (angle s)) in
  let sin_theta := sin (py_last (angle s)) in
  let area := PI * py_last (radius s) ^ 2 in
  let rhoa_ := rhoa self (py_last (altitude s)) in
  let rhoAv := rhoa_ * area * py_last (velocity s) in
  let dvdt := - Cd self * rhoAv * py_last (velocity s)
              / (2 * py_last (mass s)) + g self * sin_theta in
  let dmdt := - Ch self * rhoAv * py_last (velocity s) ^ 2 / (2 * Q self) in
  let dthetadt := - Cl self * rhoAv / (2 * py_last (mass s))
                  + g self * cos_theta / py_last (velocity s)
                  - py_last (velocity s) * cos_theta
                    / (Rp self + py_last (altitude s)) in
  let dzdt := - py_last (velocity s) * sin_theta in
  let dxdt := py_last (velocity s) * cos_theta
              / (1 + py_last (altitude s) / Rp self) in
  let ram := rhoa self (py_last (altitude s)) * py_last (velocity s) ^ 2 in
  let '(bp, drdt) := burst_test self s rhoa_ ram (py_last (velocity s)) in
  let s := record_eval s (py_last (velocity s)) ram bp in
  append_row s
    (dvdt * timestep + py_last (velocity s))
    (dmdt * timestep + py_last (mass s))
    (dzdt * timestep + py_last (altitude s))
    (dthetadt * timestep + py_last (angle s))
    (dxdt * timestep + py_last (distance s))
    (drdt * timestep + py_last (radius s))
    (timestep + py_last (alltimestep s)).

Definition solve_atmospheric_entry_FE (fuel : nat) (self : Planet)
    (s : Attrs) (radius velocity angle init_altitude dt : R) : option Attrs :=
  let s := initial_lists s radius velocity angle init_altitude in
  let timestep := dt in
  do_while (FE_body self timestep)
    (fun s => should_break s init_altitude) fuel s.

(** ** [Planet.solve_atmospheric_entry] *)

Inductive Solver : Type := SolverFE | SolverRK4.

Definition run_solver (k : Solver) :=
  match k with
  | SolverFE => solve_atmospheric_entry_FE
  | SolverRK4 => solve_atmospheric_entry_RK4
  end.

(** The two lines printed by the handler at lines 161-163. *)
Definition backend_warning (backend : string) : list string :=
  [("solving method " ++ backend ++ " not implemented yet.")%string;
   "Falling back to FE for now"%string].

(** Lines 152-164: the printed lines and the chosen solver. *)
Definition choose_solver (backend : string) : list string * Solver :=
  if String.eqb backend "FE" then ([], SolverFE)
  else if String.eqb backend "RK4" then ([], SolverRK4)
  else (backend_warning backend, SolverFE).

(** [pd.DataFrame(dict)] for columns of one length. *)
Definition DataFrame_of (cols : list (string * list R)) : DataFrame :=
  {| nrows := match cols with [] => 0 | c :: _ => length (snd c) end;
     columns := cols |}.

(** What a call leaves behind: the printed lines, the attributes of [self]
    and the returned table. *)
Record Solved : Type := mkSolved {
  printed : list string;
  attrs : Attrs;
  frame : DataFrame
}.

(** Attributes before the first call; only [burstpoint] has a value that
    [__init__] gives it and the solver reads ([-1], overwritten anyway). *)
Definition fresh_attrs : Attrs := mkAttrs 0 0 (-1) [] [] [] [] [] [] [] [].

Definition default_init_altitude : R := 100e3.
Definition default_dt : R := 0.05.
Definition default_radians : bool := false.
Definition default_backend : string := "RK4".

(** Lines 149-151: [self.strength], [self.density] and [self.burstpoint] are
    assigned; the ghost history of evaluations starts empty with the run. *)
Definition begin_run (s : Attrs) (strength_ density_ : R) : Attrs :=
  mkAttrs strength_ density_ (-1) (velocity s) (mass s) (angle s)
    (altitude s) (distance s) (radius s) (alltimestep s) [].

(** Lines 166-176: the returned table. *)
Definition result_frame (radians : bool) (s : Attrs) : DataFrame :=
  let all_angle :=
    if negb radians then map (fun i => i / PI * 180) (angle s)
    else angle s in
  DataFrame_of
    [("velocity"%string, but_last (velocity s));
     ("mass"%string, but_last (mass s));
     ("angle"%string, but_last all_angle);
     ("altitude"%string, but_last (altitude s));
     ("distance"%string, but_last (distance s));
     ("radius"%string, but_last (radius s));
     ("time"%string, but_last (alltimestep s))].

Definition solve_atmospheric_entry (fuel : nat) (self : Planet) (s : Attrs)
    (radius velocity density strength angle init_altitude dt : R)
    (radians : bool) (backend : string) : option Solved :=
  let angle := if negb radians then angle / 180 * PI else angle in
  let s := begin_run s strength density in
  let '(out, solver) := choose_solver backend in
  match run_solver solver fuel self s radius velocity angle init_altitude dt with
  | None => None
  | Some s => Some (mkSolved out s (result_frame radians s))
  end.

(** ** Vocabulary of the statements *)

(** [k] is the first position of the maximum [peak] of the series [s]. *)
Definition first_max (s : list R) (k : nat) (peak : R) : Prop :=
  s !! k = Some peak
  /\ (forall j x, s !! j = Some x -> x <= peak)
  /\ (forall j x, (j < k)%nat -> s !! j = Some x -> x < peak).

(** The entry of [dedz] at row [i+1] in the words of the specification:
    [-(KE[i+1]-KE[i]) / (altitude[i+1]-altitude[i])], over [4.184e9]. *)
Definition dedz_as_specified (m0 v0 z0 m1 v1 z1 : R) : R :=
  - (0.5 * m1 * v1 ^ 2 - 0.5 * m0 * v0 ^ 2) / (z1 - z0) / (4.184 * 10 ^ 9).

(** A two-row table on which the code and the specification's formula
    disagree: the code stores [3/4.184e9] at row 1 where the formula of the
    specification gives [-3/4.184e9]. *)
Definition two_rows : DataFrame :=
  DataFrame_of
    [("velocity"%string, [2; 1]); ("mass"%string, [2; 2]);
     ("angle"%string, [1; 1]); ("altitude"%string, [2; 1]);
     ("distance"%string, [0; 1]); ("radius"%string, [1; 1]);
     ("time"%string, [0; 1])].

(** [two_rows] after [calculate_energy]. *)
Definition two_rows_dedz : DataFrame :=
  {| nrows := 2;
     columns := columns two_rows ++ [("dedz"%string, [0; 3 / 4184000000])] |}.

(** A table file with two entries, (0 m, 1 kg/m^3) and (1000 m, 0.9 kg/m^3),
    and a file system that has it under every name. *)
Definition small_table : list (list R) := [[0; 1]; [1000; 0.9]].
Definition fs_small_table : filesystem := fun _ => Ok small_table.


(** The test of the loops, on the numbers of one row. *)
Definition terminated (init_altitude z m r v : R) : Prop :=
  z <= 0 \/ m <= 0 \/ r <= 0 \/ v <= 0 \/ z >= init_altitude.

(** The seven lists of the attributes all have [n] entries. *)
Definition lists_length (s : Attrs) (n : nat) : Prop :=
  length (velocity s) = n /\ length (mass s) = n /\ length (angle s) = n
  /\ length (altitude s) = n /\ length (distance s) = n
  /\ length (radius s) = n /\ length (alltimestep s) = n.

(** No row appended so far (index 1 and up) passes the test of the loop. *)
Definition rows_alive (init_altitude : R) (s : Attrs) : Prop :=
  forall i z m r v, (1 <= i)%nat ->
    altitude s !! i = Some z -> mass s !! i = Some m ->
    radius s !! i = Some r -> velocity s !! i = Some v ->
    ~ terminated init_altitude z m r v.

(** Row 0 of the attributes. *)
Definition first_row (s : Attrs) (v m theta z x r t : R) : Prop :=
  velocity s !! 0%nat = Some v /\ mass s !! 0%nat = Some m
  /\ angle s !! 0%nat = Some theta /\ altitude s !! 0%nat = Some z
  /\ distance s !! 0%nat = Some x /\ radius s !! 0%nat = Some r
  /\ alltimestep s !! 0%nat = Some t.

(** The burst index that a history of evaluations calls for: the value of
    [len(self.distance)] at the first evaluation whose ram pressure exceeds
    the strength, the sentinel [-1] if there is none. *)
Fixpoint first_burst (log : list Eval) : Z :=
  match log with
  | [] => (-1)%Z
  | e :: log' =>
      if Rgt_dec (ev_ram e) (ev_strength e) then Z.of_nat (ev_len e)
      else first_burst log'
  end.

(** The history agrees with the attribute: before evaluation [k] the burst
    index is what the first [k] evaluations call for, after it what the
    first [k+1] call for, and the attribute holds what the whole history
    calls for. *)
Definition log_consistent (s : Attrs) : Prop :=
  burstpoint s = first_burst (evals s)
  /\ forall k e, evals s !! k = Some e ->
       ev_before e = first_burst (take k (evals s))
       /\ ev_after e = first_burst (take (S k) (evals s))
       /\ ev_strength e = strength s
       /\ (1 <= ev_len e)%nat.

(** The invariant of both loops, at the head of the loop. *)
Definition loop_inv (init_altitude st dens v m theta z x r t : R)
    (s : Attrs) : Prop :=
  (exists n, (1 <= n)%nat /\ lists_length s n)
  /\ first_row s v m theta z x r t
  /\ rows_alive init_altitude s
  /\ strength s = st /\ density s = dens
  /\ log_consistent s.

(** [s1] has the rows, the strength and the density of [s]: only the burst
    index and the history may differ. *)
Definition same_rows (s s1 : Attrs) : Prop :=
  velocity s1 = velocity s /\ mass s1 = mass s /\ angle s1 = angle s
  /\ altitude s1 = altitude s /\ distance s1 = distance s
  /\ radius s1 = radius s /\ alltimestep s1 = alltimestep s
  /\ strength s1 = strength s /\ density s1 = density s.

(** [s'] is [s] after some evaluations of the derivatives and the seven
    [append]s of one row. *)
Definition one_row_more (s s' : Attrs) : Prop :=
  exists s1 v m z theta x r t,
    s' = append_row s1 v m z theta x r t
    /\ same_rows s s1
    /\ ((1 <= length (distance s))%nat -> log_consistent s ->
        log_consistent s1).

(** The loop body that a solver runs. *)
Definition body_of (k : Solver) (self : Planet) (dt : R) : Attrs -> Attrs :=
  match k with
  | SolverFE => FE_body self dt
  | SolverRK4 => RK4_body self dt dt
  end.

(** [df[name][i]]. *)
Definition cell (df : DataFrame) (name : string) (i : nat) : option R :=
  match assoc name (columns df) with
  | Some col => col !! i
  | None => None
  end.


(** ** A planet and a scenario to run *)

(** [Planet()] with every default. *)
Definition earth : Planet :=
  mkPlanet 1 0.1 1e7 1e-3 0.3 6371e3 9.81 8000 1.2
    "AltitudeDensityTable.csv" (fun x => 1.2 * exp (- x / 8000)).

(** A body of radius 1 m and density 1 kg/m^3 falling vertically (90
    degrees) at 1 m/s from 1 m with a time step of 1 s: the first step
    reaches the ground. [demo_attrs] is [self] after that step. *)
Definition demo_attrs : Attrs :=
  FE_body earth 1
    (initial_lists (begin_run fresh_attrs 1e5 1) 1 1 (90 / 180 * PI) 1).

Definition demo_solved (out : list string) : Solved :=
  mkSolved out demo_attrs (result_frame false demo_attrs).

(** ** The derivatives as a function *)

(** What [calculator_rk4] returns, without its effect on [self]: the six
    rates at [variables] for a body of the given strength and density. *)
Definition rates (self : Planet) (strength_ density_ : R) (variables : vec6)
    : vec6 :=
  let '(angle, radius, altitude, velocity, mass, _) := variables in
  let cos_theta := cos angle in
  let sin_theta := sin angle in
  let area := PI * radius ^ 2 in
  let rhoa_ := rhoa self altitude in
  let rhoAv := rhoa_ * area * velocity in
  let dvdt := - Cd self * rhoAv * velocity / (2 * mass) + g self * sin_theta in
  let dmdt := - Ch self * rhoAv * velocity ^ 2 / (2 * Q self) in
  let dthetadt := - Cl self * rhoAv / (2 * mass)
                  + g self * cos_theta / velocity
                  - velocity * cos_theta / (Rp self + altitude) in
  let dzdt := - velocity * sin_theta in
  let dxdt := velocity * cos_theta / (1 + altitude / Rp self) in
  let ram := rhoa self altitude * velocity ^ 2 in
  let drdt :=
    if Rgt_dec ram strength_
    then sqrt (7 * rhoa_ * alpha self / 2 / density_) * velocity
    else 0 in
  (dthetadt, drdt, dzdt, dvdt, dmdt, dxdt).

(** What [RK4_helper] returns, as a function of the last row [variables]. *)
Definition rk4_change (self : Planet) (strength_ density_ timestep : R)
    (variables : vec6) : vec6 :=
  let f := rates self strength_ density_ in
  let k1 := f variables in
  let k2 := f (vadd variables (vscale (0.5 * timestep) k1)) in
  let k3 := f (vadd variables (vscale (0.5 * timestep) k2)) in
  let k4 := f (vadd variables (vscale timestep k3)) in
  vdiv (vtimes (vadd (vadd (vadd k1 (vscale 2 k2)) (vscale 2 k3)) k4)
          timestep) 6.

(** The last row of the attributes, in the order of the numpy array. *)
Definition last_row (s : Attrs) : vec6 :=
  (py_last (angle s), py_last (radius s), py_last (altitude s),
   py_last (velocity s), py_last (mass s), py_last (distance s)).

(** ** Valid inputs *)

(** The constants of the planet are strictly positive. *)
Definition valid_planet (self : Planet) : Prop :=
  0 < Cd self /\ 0 < Ch self /\ 0 < Q self /\ 0 < Cl self /\ 0 < alpha self
  /\ 0 < Rp self /\ 0 < g self /\ 0 < H self /\ 0 < rho0 self.

(** The density function is the one [__init__] builds for ["exponential"]
    or for ["constant"]. *)
Definition exponential_or_constant (self : Planet) : Prop :=
  (forall x, rhoa self x = rho0 self * exp (- x / H self))
  \/ (forall x, rhoa self x = rho0 self).




(** ** A coarse time step *)

(** A planet with a constant atmosphere, [Planet(atmos_func='constant',
    Cd=1, Ch=12, Q=1, Cl=1e-3, alpha=1, Rp=1e6, g=1e-3, H=1, rho0=0.2)]. *)
Definition coarse_planet : Planet :=
  mkPlanet 1 12 1 (1 / 1000) 1 1000000 (1 / 1000) 1 (1 / 5)
    "AltitudeDensityTable.csv" (fun _ => 1 / 5).


(** Components of a six-vector: the velocity (or its rate) and the mass (or
    its rate). *)
Definition vel_of (y : vec6) : R := let '(_, _, _, v, _, _) := y in v.
Definition mass_of (y : vec6) : R := let '(_, _, _, _, m, _) := y in m.
Definition alt_of (y : vec6) : R := let '(_, _, z, _, _, _) := y in z.
Definition rad_of (y : vec6) : R := let '(_, r, _, _, _, _) := y in r.

(** The inputs of the four evaluations of one Runge-Kutta step. *)
Definition rk4_stages (self : Planet) (strength_ density_ timestep : R)
    (variables : vec6) : list vec6 :=
  let f := rates self strength_ density_ in
  let k1 := f variables in
  let y2 := vadd variables (vscale (0.5 * timestep) k1) in
  let k2 := f y2 in
  let y3 := vadd variables (vscale (0.5 * timestep) k2) in
  let k3 := f y3 in
  let y4 := vadd variables (vscale timestep k3) in
  [variables; y2; y3; y4].






(** The attributes without the ghost history. *)
Definition forget_history (s : Attrs) : Attrs :=
  mkAttrs (strength s) (density s) (burstpoint s) (velocity s) (mass s)
    (angle s) (altitude s) (distance s) (radius s) (alltimestep s) [].

(** ** Vocabulary of the further properties *)


(** A one-row table with its [dedz] column and no [altitude] column. *)
Definition one_row_dedz : DataFrame :=
  DataFrame_of
    [("velocity"%string, [2]); ("mass"%string, [2]);
     ("distance"%string, [0]); ("dedz"%string, [0])].


(** The burst index [bp] is unset, or it is between 1 and [n]. *)
Definition burst_in_range (bp : Z) (n : nat) : Prop :=
  bp = (-1)%Z \/ (1 <= bp <= Z.of_nat n)%Z.

(** * Properties *)

(** ** Lists, columns and the store *)

Lemma but_last_app {A : Type} (l : list A) (x : A) : but_last (l ++ [x]) = l.
Proof.
  unfold but_last. rewrite length_app. simpl.
  replace (length l + 1 - 1)%nat with (length l) by lia.
  now rewrite take_app_length.
Qed.

Lemma py_last_app (l : list R) (x : R) : py_last (l ++ [x]) = x.
Proof. unfold py_last. apply last_last. Qed.

Lemma length_but_last {A : Type} (l : list A) :
  length (but_last l) = (length l - 1)%nat.
Proof. unfold but_last. rewrite length_take. lia. Qed.

Lemma length_from_1 {A : Type} (l : list A) :
  length (from_1 l) = (length l - 1)%nat.
Proof. unfold from_1. now rewrite length_drop. Qed.

Lemma lookup_but_last {A : Type} (l : list A) (i : nat) :
  (S i < length l)%nat -> but_last l !! i = l !! i.
Proof. intros Hi. unfold but_last. apply lookup_take_lt. lia. Qed.

Lemma lookup_from_1 {A : Type} (l : list A) (i : nat) :
  from_1 l !! i = l !! S i.
Proof. unfold from_1. now rewrite lookup_drop. Qed.

Lemma assoc_app_last (name k : string) (v : list R) cols :
  assoc name (cols ++ [(k, v)]) =
  match assoc name cols with
  | Some x => Some x
  | None => if String.eqb k name then Some v else None
  end.
Proof.
  induction cols as [|[k' v'] cols IH]; simpl.
  - reflexivity.
  - destruct (String.eqb k' name); [reflexivity | exact IH].
Qed.

Lemma assoc_length (df : DataFrame) (name : string) (v : list R) :
  df_wf df -> assoc name (columns df) = Some v -> length v = nrows df.
Proof.
  unfold df_wf. generalize (nrows df) as n. intros n.
  induction (columns df) as [|[k' v'] cols IH]; simpl; intros Hwf Hv.
  - discriminate.
  - pose proof (Forall_inv Hwf) as Hhd.
    pose proof (Forall_inv_tail Hwf) as Htl.
    destruct (String.eqb k' name).
    + injection Hv as <-. exact Hhd.
    + now apply IH.
Qed.

Lemma getitem_some (df : DataFrame) (name : string) (v : list R) :
  assoc name (columns df) = Some v -> getitem df name = Ok v.
Proof. unfold getitem. now intros ->. Qed.

Lemma at_label_some (s : list R) (i : nat) (x : R) :
  s !! i = Some x -> at_label s i = Ok x.
Proof. unfold at_label. now intros ->. Qed.

Lemma df_insert_end (df : DataFrame) (column : string) (value : list R) :
  assoc column (columns df) = None ->
  length value = nrows df ->
  df_insert df (length (columns df)) column value =
  Ok {| nrows := nrows df; columns := columns df ++ [(column, value)] |}.
Proof.
  intros Hnone Hlen. unfold df_insert. rewrite Hnone.
  rewrite Hlen, Nat.eqb_refl. simpl.
  rewrite Nat.ltb_irrefl.
  now rewrite firstn_all, drop_all.
Qed.

(** ** The [dedz] column *)

Lemma length_kinetic (mass velocity : list R) (n : nat) :
  length mass = n -> length velocity = n -> length (kinetic mass velocity) = n.
Proof.
  intros Hm Hv. unfold kinetic. rewrite length_zip_with, Hm, Hv.
  apply Nat.min_id.
Qed.

Lemma lookup_kinetic (mass velocity : list R) (i : nat) (m v : R) :
  mass !! i = Some m -> velocity !! i = Some v ->
  kinetic mass velocity !! i = Some (0.5 * m * v ^ 2).
Proof.
  intros Hm Hv. unfold kinetic. rewrite lookup_zip_with, Hm. simpl.
  now rewrite Hv.
Qed.

Lemma length_dedz_values (mass velocity altitude : list R) (n : nat) :
  (1 <= n)%nat -> length mass = n -> length velocity = n ->
  length altitude = n ->
  length (dedz_values mass velocity altitude) = n.
Proof.
  intros Hn Hm Hv Hz. unfold dedz_values.
  rewrite length_map. simpl. rewrite length_map.
  rewrite !length_zip_with, !length_from_1, !length_but_last.
  rewrite (length_kinetic mass velocity n Hm Hv), Hz.
  rewrite !Nat.min_id. lia.
Qed.

Lemma lookup_dedz_values_0 (mass velocity altitude : list R) :
  dedz_values mass velocity altitude !! 0%nat = Some (- 0).
Proof. reflexivity. Qed.

Lemma lookup_dedz_values_S (mass velocity altitude : list R) (i : nat)
    (m0 v0 z0 m1 v1 z1 : R) :
  length mass = length velocity -> length mass = length altitude ->
  mass !! i = Some m0 -> velocity !! i = Some v0 -> altitude !! i = Some z0 ->
  mass !! S i = Some m1 -> velocity !! S i = Some v1 ->
  altitude !! S i = Some z1 ->
  dedz_values mass velocity altitude !! S i =
  Some (- ((0.5 * m1 * v1 ^ 2 - 0.5 * m0 * v0 ^ 2) / (z0 - z1)
           / (4.184 * 10 ^ 9))).
Proof.
  intros Hlv Hlz Hm0 Hv0 Hz0 Hm1 Hv1 Hz1.
  assert (Hi : (S i < length mass)%nat) by (apply lookup_lt_is_Some; eauto).
  assert (Hk : length (kinetic mass velocity) = length mass)
    by (apply length_kinetic; auto).
  unfold dedz_values.
  rewrite list_lookup_fmap. simpl.
  rewrite list_lookup_fmap.
  rewrite !lookup_zip_with, !lookup_from_1.
  rewrite !lookup_but_last.
  - rewrite (lookup_kinetic _ _ _ _ _ Hm1 Hv1). simpl.
    rewrite (lookup_kinetic _ _ _ _ _ Hm0 Hv0). simpl.
    rewrite Hz0. simpl. rewrite Hz1. reflexivity.
  - lia.
  - lia.
Qed.

Lemma calculate_energy_run (sigma : store) (result : loc) (df : DataFrame)
    (mass velocity altitude : list R) :
  sigma !! result = Some df ->
  df_wf df -> (1 <= nrows df)%nat ->
  assoc "mass" (columns df) = Some mass ->
  assoc "velocity" (columns df) = Some velocity ->
  assoc "altitude" (columns df) = Some altitude ->
  assoc "dedz" (columns df) = None ->
  calculate_energy sigma result =
  Ok (<[result := {| nrows := nrows df;
                     columns := columns df
                       ++ [("dedz"%string,
                            dedz_values mass velocity altitude)] |}]> sigma,
      result).
Proof.
  intros Hdf Hwf Hn Hm Hv Hz Hnone.
  unfold calculate_energy, deref. rewrite Hdf. simpl.
  rewrite (getitem_some _ _ _ Hm). simpl.
  rewrite (getitem_some _ _ _ Hv). simpl.
  rewrite (getitem_some _ _ _ Hz). simpl.
  rewrite df_insert_end; [reflexivity | exact Hnone |].
  apply length_dedz_values; eauto using assoc_length.
Qed.

(** C1, as the code has it. For a table with at least one row,
    [calculate_energy] adds a column [dedz] with one entry per row; its first
    entry is 0 and its entry at row [i+1] is
    [-(KE[i+1]-KE[i]) / (altitude[i]-altitude[i+1])] over [4.184e9], with
    [KE[i] = 0.5 * mass[i] * velocity[i]^2]: the altitude difference is taken
    from row [i] to row [i+1], the other way round from the specification. *)
Theorem calculate_energy_dedz_column (sigma : store) (result : loc)
    (df : DataFrame) (mass velocity altitude : list R) :
  sigma !! result = Some df ->
  df_wf df -> (1 <= nrows df)%nat ->
  assoc "mass" (columns df) = Some mass ->
  assoc "velocity" (columns df) = Some velocity ->
  assoc "altitude" (columns df) = Some altitude ->
  assoc "dedz" (columns df) = None ->
  exists df' dedz,
    calculate_energy sigma result = Ok (<[result := df']> sigma, result)
    /\ assoc "dedz" (columns df') = Some dedz
    /\ length dedz = nrows df
    /\ dedz !! 0%nat = Some 0
    /\ forall i m0 v0 z0 m1 v1 z1,
         mass !! i = Some m0 -> velocity !! i = Some v0 ->
         altitude !! i = Some z0 ->
         mass !! S i = Some m1 -> velocity !! S i = Some v1 ->
         altitude !! S i = Some z1 ->
         dedz !! S i =
         Some (- (0.5 * m1 * v1 ^ 2 - 0.5 * m0 * v0 ^ 2) / (z0 - z1)
               / (4.184 * 10 ^ 9)).
Proof.
  intros Hdf Hwf Hn Hm Hv Hz Hnone.
  pose proof (assoc_length _ _ _ Hwf Hm) as Lm.
  pose proof (assoc_length _ _ _ Hwf Hv) as Lv.
  pose proof (assoc_length _ _ _ Hwf Hz) as Lz.
  eexists _, (dedz_values mass velocity altitude). split.
  { eapply calculate_energy_run; eassumption. }
  split.
  { simpl. rewrite assoc_app_last, Hnone. reflexivity. }
  split.
  { now apply length_dedz_values. }
  split.
  { rewrite lookup_dedz_values_0. f_equal. lra. }
  intros i m0 v0 z0 m1 v1 z1 Hm0 Hv0 Hz0 Hm1 Hv1 Hz1.
  rewrite (lookup_dedz_values_S _ _ _ i m0 v0 z0 m1 v1 z1) by congruence.
  f_equal. unfold Rdiv. ring.
Qed.

Lemma calculate_energy_dedz_column_witness :
  exists df' dedz,
    calculate_energy {[0%nat := two_rows]} 0%nat =
      Ok (<[0%nat := df']> {[0%nat := two_rows]}, 0%nat)
    /\ assoc "dedz" (columns df') = Some dedz
    /\ length dedz = 2%nat
    /\ dedz !! 0%nat = Some 0
    /\ forall i m0 v0 z0 m1 v1 z1,
         [2; 2] !! i = Some m0 -> [2; 1] !! i = Some v0 ->
         [2; 1] !! i = Some z0 ->
         [2; 2] !! S i = Some m1 -> [2; 1] !! S i = Some v1 ->
         [2; 1] !! S i = Some z1 ->
         dedz !! S i =
         Some (- (0.5 * m1 * v1 ^ 2 - 0.5 * m0 * v0 ^ 2) / (z0 - z1)
               / (4.184 * 10 ^ 9)).
Proof.
  apply (calculate_energy_dedz_column {[0%nat := two_rows]} 0%nat two_rows
           [2; 2] [2; 1] [2; 1]).
  - apply lookup_singleton_eq.
  - repeat constructor.
  - simpl. lia.
  - reflexivity.
  - reflexivity.
  - reflexivity.
  - reflexivity.
Defined.

(** C1 as stated fails: on [two_rows] the code stores [3/4.184e9] at row 1,
    the formula of the claim gives [-3/4.184e9]. *)
Lemma calculate_energy_sign_counterexample :
  exists dedz,
    calculate_energy {[0%nat := two_rows]} 0%nat =
      Ok (<[0%nat := {| nrows := 2;
                        columns := columns two_rows
                                     ++ [("dedz"%string, dedz)] |}]>
            {[0%nat := two_rows]}, 0%nat)
    /\ dedz !! 1%nat = Some (3 / 4184000000)
    /\ dedz_as_specified 2 2 2 2 1 1 = - 3 / 4184000000
    /\ dedz !! 1%nat <> Some (dedz_as_specified 2 2 2 2 1 1).
Proof.
  exists (dedz_values [2; 2] [2; 1] [2; 1]).
  assert (Hc : dedz_as_specified 2 2 2 2 1 1 = - 3 / 4184000000).
  { unfold dedz_as_specified. lra. }
  assert (Hd : dedz_values [2; 2] [2; 1] [2; 1] !! 1%nat
               = Some (3 / 4184000000)).
  { rewrite (lookup_dedz_values_S _ _ _ 0 2 2 2 2 1 1) by reflexivity.
    f_equal. lra. }
  split; [| split; [exact Hd | split; [exact Hc |]]].
  - apply (calculate_energy_run _ _ two_rows);
      [apply lookup_singleton_eq | repeat constructor | simpl; lia
      | reflexivity ..].
  - rewrite Hd, Hc. intros Heq. injection Heq as Heq. lra.
Qed.



(** ** [idxmax] and the outcome *)

Lemma py_max_Rmax (a b : R) : py_max a b = Rmax a b.
Proof.
  unfold py_max, Rmax.
  destruct (Rlt_dec a b), (Rle_dec a b); try reflexivity; lra.
Qed.

Lemma argmax_from_first_max (l pre : list R) (best_i : nat) (best : R) :
  first_max pre best_i best ->
  exists peak,
    first_max (pre ++ l) (argmax_from best_i best (length pre) l) peak.
Proof.
  revert pre best_i best.
  induction l as [|x l IH]; intros pre best_i best Hfm; simpl.
  - exists best. now rewrite app_nil_r.
  - destruct Hfm as (Hk & Hall & Hbefore).
    assert (Hlt : (best_i < length pre)%nat)
      by (apply lookup_lt_is_Some; eauto).
    replace (pre ++ x :: l) with ((pre ++ [x]) ++ l)
      by (now rewrite <- app_assoc).
    assert (Hlen : S (length pre) = length (pre ++ [x]))
      by (rewrite length_app; simpl; lia).
    destruct (Rlt_dec best x) as [Hbx | Hbx]; rewrite Hlen.
    + apply IH. repeat split.
      * rewrite lookup_app_r by lia.
        now replace (length pre - length pre)%nat with 0%nat by lia.
      * intros j y Hj.
        destruct (Nat.lt_ge_cases j (length pre)) as [Hjl | Hjl].
        -- rewrite lookup_app_l in Hj by assumption.
           specialize (Hall _ _ Hj). lra.
        -- rewrite lookup_app_r in Hj by assumption.
           destruct (j - length pre)%nat; simpl in Hj; [|discriminate].
           injection Hj as <-. lra.
      * intros j y Hjl Hj.
        rewrite lookup_app_l in Hj by assumption.
        specialize (Hall _ _ Hj). lra.
    + apply IH. repeat split.
      * now rewrite lookup_app_l.
      * intros j y Hj.
        destruct (Nat.lt_ge_cases j (length pre)) as [Hjl | Hjl].
        -- rewrite lookup_app_l in Hj by assumption. eauto.
        -- rewrite lookup_app_r in Hj by assumption.
           destruct (j - length pre)%nat; simpl in Hj; [|discriminate].
           injection Hj as <-. lra.
      * intros j y Hjl Hj.
        rewrite lookup_app_l in Hj by lia. eauto.
Qed.

Lemma idxmax_first_max (s : list R) :
  (1 <= length s)%nat ->
  exists k peak, idxmax s = Ok k /\ first_max s k peak.
Proof.
  destruct s as [|x l]; simpl; [lia | intros _].
  destruct (argmax_from_first_max l [x] 0 x) as [peak Hp].
  - repeat split.
    + intros [|j] y Hj; simpl in Hj; [|discriminate].
      injection Hj as <-. lra.
    + intros j y Hj. lia.
  - exists (argmax_from 0 x 1 l), peak. split; [reflexivity | exact Hp].
Qed.

Lemma first_max_lt_length (s : list R) (k : nat) (peak : R) :
  first_max s k peak -> (k < length s)%nat.
Proof. intros (Hk & _). apply lookup_lt_is_Some. eauto. Qed.

(** C2. On a table with at least one row and a [dedz] column,
    [analyse_outcome] takes the first position [burstidx] of the maximum of
    [dedz]. The outcome is ["Cratering"] exactly when that position is the
    last row, and then [burst_altitude = 0] and [burst_energy] is the larger
    of the energy at burst and the initial energy minus it; otherwise the
    outcome is ["Airburst"], [burst_altitude] is the altitude at [burstidx]
    and [burst_energy] is the initial energy minus the energy at burst. Both
    energies are [0.5 * mass * velocity^2 / 4.184e12], at row 0 and at
    [burstidx]; [burst_distance] and [burst_peak_dedz] are read at
    [burstidx]. *)
Theorem analyse_outcome_classification (sigma : store) (result : loc)
    (df : DataFrame) (dedz mass velocity altitude distance : list R) :
  sigma !! result = Some df ->
  df_wf df -> (1 <= nrows df)%nat ->
  assoc "dedz" (columns df) = Some dedz ->
  assoc "mass" (columns df) = Some mass ->
  assoc "velocity" (columns df) = Some velocity ->
  assoc "altitude" (columns df) = Some altitude ->
  assoc "distance" (columns df) = Some distance ->
  exists burstidx peak m0 v0 mb vb zb xb o,
    analyse_outcome sigma result = Ok o
    /\ first_max dedz burstidx peak
    /\ mass !! 0%nat = Some m0 /\ velocity !! 0%nat = Some v0
    /\ mass !! burstidx = Some mb /\ velocity !! burstidx = Some vb
    /\ altitude !! burstidx = Some zb /\ distance !! burstidx = Some xb
    /\ let initial_energy := 0.5 * m0 * v0 ^ 2 / (4.184 * 10 ^ 12) in
       let energy_at_burst := 0.5 * mb * vb ^ 2 / (4.184 * 10 ^ 12) in
       (outcome o = "Cratering"%string <-> burstidx = (nrows df - 1)%nat)
       /\ (burstidx = (nrows df - 1)%nat ->
             outcome o = "Cratering"%string
             /\ burst_altitude o = 0
             /\ burst_energy o
                = Rmax energy_at_burst (initial_energy - energy_at_burst))
       /\ (burstidx <> (nrows df - 1)%nat ->
             outcome o = "Airburst"%string
             /\ burst_altitude o = zb
             /\ burst_energy o = initial_energy - energy_at_burst)
       /\ burst_distance o = xb
       /\ burst_peak_dedz o = peak.
Proof.
  intros Hdf Hwf Hn Hd Hm Hv Hz Hx.
  pose proof (assoc_length _ _ _ Hwf Hd) as Ld.
  pose proof (assoc_length _ _ _ Hwf Hm) as Lm.
  pose proof (assoc_length _ _ _ Hwf Hv) as Lv.
  pose proof (assoc_length _ _ _ Hwf Hz) as Lz.
  pose proof (assoc_length _ _ _ Hwf Hx) as Lx.
  destruct (idxmax_first_max dedz) as (k & peak & Hidx & Hfm); [lia |].
  pose proof (first_max_lt_length _ _ _ Hfm) as Hk.
  destruct (lookup_lt_is_Some_2 mass 0) as [m0 Hm0]; [lia |].
  destruct (lookup_lt_is_Some_2 velocity 0) as [v0 Hv0]; [lia |].
  destruct (lookup_lt_is_Some_2 mass k) as [mb Hmb]; [lia |].
  destruct (lookup_lt_is_Some_2 velocity k) as [vb Hvb]; [lia |].
  destruct (lookup_lt_is_Some_2 altitude k) as [zb Hzb]; [lia |].
  destruct (lookup_lt_is_Some_2 distance k) as [xb Hxb]; [lia |].
  assert (Hpeak : dedz !! k = Some peak) by apply Hfm.
  exists k, peak, m0, v0, mb, vb, zb, xb.
  unfold analyse_outcome, deref. rewrite Hdf. simpl.
  rewrite (getitem_some _ _ _ Hd). simpl. rewrite Hidx. simpl.
  rewrite (getitem_some _ _ _ Hm). simpl.
  rewrite (getitem_some _ _ _ Hv). simpl.
  rewrite (at_label_some _ _ _ Hm0). simpl.
  rewrite (at_label_some _ _ _ Hv0). simpl.
  rewrite (at_label_some _ _ _ Hmb). simpl.
  rewrite (at_label_some _ _ _ Hvb). simpl.
  destruct (Z.eqb_spec (Z.of_nat k) (Z.of_nat (nrows df) - 1)) as [Heq | Hne].
  - assert (Hlast : k = (nrows df - 1)%nat) by lia.
    simpl. rewrite (at_label_some _ _ _ Hpeak). simpl.
    rewrite (getitem_some _ _ _ Hx). simpl.
    rewrite (at_label_some _ _ _ Hxb). simpl.
    eexists. split; [reflexivity |].
    repeat (split; [assumption |]). simpl.
    split; [tauto |]. split.
    + intros _. repeat split. apply py_max_Rmax.
    + split; [intros Hc; contradiction | split; reflexivity].
  - assert (Hlast : k <> (nrows df - 1)%nat) by lia.
    rewrite (getitem_some _ _ _ Hz). simpl.
    rewrite (at_label_some _ _ _ Hzb). simpl.
    rewrite (at_label_some _ _ _ Hpeak). simpl.
    rewrite (getitem_some _ _ _ Hx). simpl.
    rewrite (at_label_some _ _ _ Hxb). simpl.
    eexists. split; [reflexivity |].
    repeat (split; [assumption |]). simpl.
    split; [split; [discriminate | contradiction] |]. split.
    + intros Hc; contradiction.
    + split; [intros _; repeat split | split; reflexivity].
Qed.

Lemma analyse_outcome_classification_witness :
  exists burstidx peak m0 v0 mb vb zb xb o,
    analyse_outcome {[0%nat := two_rows_dedz]} 0%nat = Ok o
    /\ first_max [0; 3 / 4184000000] burstidx peak
    /\ [2; 2] !! 0%nat = Some m0 /\ [2; 1] !! 0%nat = Some v0
    /\ [2; 2] !! burstidx = Some mb /\ [2; 1] !! burstidx = Some vb
    /\ [2; 1] !! burstidx = Some zb /\ [0; 1] !! burstidx = Some xb
    /\ let initial_energy := 0.5 * m0 * v0 ^ 2 / (4.184 * 10 ^ 12) in
       let energy_at_burst := 0.5 * mb * vb ^ 2 / (4.184 * 10 ^ 12) in
       (outcome o = "Cratering"%string
        <-> burstidx = (nrows two_rows_dedz - 1)%nat)
       /\ (burstidx = (nrows two_rows_dedz - 1)%nat ->
             outcome o = "Cratering"%string
             /\ burst_altitude o = 0
             /\ burst_energy o
                = Rmax energy_at_burst (initial_energy - energy_at_burst))
       /\ (burstidx <> (nrows two_rows_dedz - 1)%nat ->
             outcome o = "Airburst"%string
             /\ burst_altitude o = zb
             /\ burst_energy o = initial_energy - energy_at_burst)
       /\ burst_distance o = xb
       /\ burst_peak_dedz o = peak.
Proof.
  apply (analyse_outcome_classification {[0%nat := two_rows_dedz]} 0%nat
           two_rows_dedz [0; 3 / 4184000000] [2; 2] [2; 1] [2; 1] [0; 1]).
  - apply lookup_singleton_eq.
  - repeat constructor.
  - simpl. lia.
  - reflexivity.
  - reflexivity.
  - reflexivity.
  - reflexivity.
  - reflexivity.
Defined.

(** ** The atmosphere *)

Lemma tabular_density_ignores_table (X Y X' Y' : list R) (x : R) :
  tabular_density X Y x = tabular_density X' Y' x.
Proof. reflexivity. Qed.

(** C4, the code at a failing input. With the table (0, 1), (1000, 0.9)
    loaded, the density function that [create_tabular_density] returns gives
    1.225 at altitude 0, where interpolation in the table gives 1, and a
    non-zero value at altitude 2000, beyond the last entry, where the
    specification asks for 0. *)
Theorem create_tabular_density_is_polynomial :
  exists f,
    create_tabular_density fs_small_table "AltitudeDensityTable.csv" = Ok f
    /\ f 0 = 1.225
    /\ spec_tabular_density [0; 1000] [1; 0.9] 0 = 1
    /\ f 2000 <> 0
    /\ spec_tabular_density [0; 1000] [1; 0.9] 2000 = 0.
Proof.
  exists (tabular_density [0; 1000] [1; 0.9]). split; [reflexivity |].
  split; [unfold tabular_density; lra |]. split.
  - unfold spec_tabular_density, py_last. simpl.
    destruct (Rgt_dec 0 1000); [lra |].
    destruct (Rge_dec 0 0); [| lra]. simpl. lra.
  - split; [unfold tabular_density; lra |].
    unfold spec_tabular_density, py_last. simpl.
    destruct (Rgt_dec 2000 1000); lra.
Qed.



(** What the constructor raises with ["tabular"], whatever the files. *)
Lemma Planet_init_tabular_TypeError (fs : filesystem)
    (atmos_filename : string) (Cd Ch Q Cl alpha Rp g H rho0 : R) :
  Planet_init fs "tabular" atmos_filename Cd Ch Q Cl alpha Rp g H rho0
  = ([], Raise TypeError).
Proof. reflexivity. Qed.

(** ** The loops *)

Lemma Rle_b_true (x y : R) : Rle_b x y = true <-> x <= y.
Proof. unfold Rle_b. destruct (Rle_dec x y); split; auto; discriminate. Qed.

Lemma Rge_b_true (x y : R) : Rge_b x y = true <-> x >= y.
Proof. unfold Rge_b. destruct (Rge_dec x y); split; auto; discriminate. Qed.

Lemma should_break_terminated (s : Attrs) (init_altitude : R) :
  should_break s init_altitude = true <->
  terminated init_altitude (py_last (altitude s)) (py_last (mass s))
    (py_last (radius s)) (py_last (velocity s)).
Proof.
  unfold should_break, terminated.
  rewrite !orb_true_iff, !Rle_b_true, Rge_b_true. tauto.
Qed.

Lemma should_break_alive (s : Attrs) (init_altitude : R) :
  should_break s init_altitude = false <->
  ~ terminated init_altitude (py_last (altitude s)) (py_last (mass s))
      (py_last (radius s)) (py_last (velocity s)).
Proof.
  rewrite <- should_break_terminated.
  destruct (should_break s init_altitude); split; intros Hb;
    try discriminate; try reflexivity; try (intros Hc; discriminate).
  exfalso. now apply Hb.
Qed.

(** What [do_while] returns is a state reached by the body from a state
    that satisfies the invariant, and it passes the test. *)
Lemma do_while_inv {S : Type} (body : S -> S) (test : S -> bool)
    (I : S -> Prop) :
  (forall s, I s -> test (body s) = false -> I (body s)) ->
  forall fuel s s', I s -> do_while body test fuel s = Some s' ->
  exists s0, I s0 /\ s' = body s0 /\ test s' = true.
Proof.
  intros Hstep fuel. induction fuel as [|fuel IH]; intros s s' Hs Hrun.
  - discriminate.
  - simpl in Hrun. destruct (test (body s)) eqn:Ht.
    + injection Hrun as <-. exists s. auto.
    + apply (IH (body s)); auto.
Qed.

(** More fuel does not change a result. *)
Lemma do_while_fuel_mono {S : Type} (body : S -> S) (test : S -> bool)
    (fuel fuel' : nat) (s s' : S) :
  (fuel <= fuel')%nat -> do_while body test fuel s = Some s' ->
  do_while body test fuel' s = Some s'.
Proof.
  revert fuel' s. induction fuel as [|fuel IH]; intros fuel' s Hle Hrun.
  - discriminate.
  - destruct fuel' as [|fuel']; [lia |]. simpl in *.
    destruct (test (body s)); [exact Hrun |].
    apply IH; [lia | exact Hrun].
Qed.

Lemma py_last_lookup (l : list R) :
  (1 <= length l)%nat -> l !! (length l - 1)%nat = Some (py_last l).
Proof.
  induction l as [|x l' _] using rev_ind; simpl; [lia |].
  intros _. rewrite py_last_app, length_app. simpl.
  replace (length l' + 1 - 1)%nat with (length l') by lia.
  rewrite lookup_app_r by lia.
  now replace (length l' - length l')%nat with 0%nat by lia.
Qed.

(** ** The burst index and its history *)

Lemma first_burst_app (log : list Eval) (e : Eval) :
  first_burst (log ++ [e]) =
  if (first_burst log =? -1)%Z then first_burst [e] else first_burst log.
Proof.
  induction log as [|e' log IH]; simpl.
  - reflexivity.
  - destruct (Rgt_dec (ev_ram e') (ev_strength e')).
    + destruct (Z.eqb_spec (Z.of_nat (ev_len e')) (-1)); [lia | reflexivity].
    + exact IH.
Qed.

Lemma same_rows_refl (s : Attrs) : same_rows s s.
Proof. repeat split. Qed.

Lemma same_rows_trans (s s1 s2 : Attrs) :
  same_rows s s1 -> same_rows s1 s2 -> same_rows s s2.
Proof.
  unfold same_rows. intros (?&?&?&?&?&?&?&?&?) (?&?&?&?&?&?&?&?&?).
  repeat split; congruence.
Qed.

Lemma same_rows_record_eval (s : Attrs) (v ram : R) (bp : Z) :
  same_rows s (record_eval s v ram bp).
Proof. repeat split. Qed.

Lemma log_consistent_record_eval (self : Planet) (s : Attrs)
    (rho ram v : R) :
  (1 <= length (distance s))%nat ->
  log_consistent s ->
  log_consistent (record_eval s v ram (fst (burst_test self s rho ram v))).
Proof.
  intros Hlen [Hbp Hlog].
  assert (Hnew : fst (burst_test self s rho ram v)
                 = first_burst (evals s ++
                     [mkEval v ram (strength s) (length (distance s))
                        (burstpoint s)
                        (fst (burst_test self s rho ram v))])).
  { rewrite first_burst_app. unfold burst_test. simpl.
    rewrite <- Hbp.
    destruct (Rgt_dec ram (strength s)); simpl;
      destruct (Z.eqb_spec (burstpoint s) (-1)); congruence. }
  split; simpl.
  - exact Hnew.
  - intros k e Hk.
    destruct (Nat.lt_ge_cases k (length (evals s))) as [Hlt | Hge].
    + rewrite lookup_app_l in Hk by assumption.
      destruct (Hlog k e Hk) as (Hb & Ha & Hs & Hl).
      rewrite !take_app_le by lia. auto.
    + rewrite lookup_app_r in Hk by assumption.
      destruct (k - length (evals s))%nat eqn:Hd; simpl in Hk;
        [| discriminate].
      injection Hk as <-. simpl.
      assert (k = length (evals s)) as -> by lia.
      rewrite take_app_length.
      rewrite take_ge by (rewrite length_app; simpl; lia).
      auto.
Qed.

Lemma calculator_rk4_effect (self : Planet) (s : Attrs) (variables : vec6) :
  same_rows s (fst (calculator_rk4 self s variables))
  /\ ((1 <= length (distance s))%nat -> log_consistent s ->
      log_consistent (fst (calculator_rk4 self s variables))).
Proof.
  destruct variables as [[[[[theta r] z] v] m] x].
  unfold calculator_rk4.
  pose proof (log_consistent_record_eval self s (rhoa self z)
                (rhoa self z * v ^ 2) v) as Hlog.
  destruct (burst_test self s (rhoa self z) (rhoa self z * v ^ 2) v)
    as [bp drdt]. simpl in *.
  split; [apply same_rows_record_eval | exact Hlog].
Qed.

Lemma RK4_helper_effect (self : Planet) (s : Attrs) (timestep : R) :
  same_rows s (fst (RK4_helper self s timestep))
  /\ ((1 <= length (distance s))%nat -> log_consistent s ->
      log_consistent (fst (RK4_helper self s timestep))).
Proof.
  unfold RK4_helper.
  set (variables := (py_last (angle s), py_last (radius s),
                     py_last (altitude s), py_last (velocity s),
                     py_last (mass s), py_last (distance s))).
  pose proof (calculator_rk4_effect self s variables) as [R1 L1].
  destruct (calculator_rk4 self s variables) as [s1 k1]. cbn [fst] in *.
  pose proof (calculator_rk4_effect self s1
                (vadd variables (vscale (0.5 * timestep) k1))) as [R2 L2].
  destruct (calculator_rk4 self s1
              (vadd variables (vscale (0.5 * timestep) k1))) as [s2 k2].
  cbn [fst] in *.
  pose proof (calculator_rk4_effect self s2
                (vadd variables (vscale (0.5 * timestep) k2))) as [R3 L3].
  destruct (calculator_rk4 self s2
              (vadd variables (vscale (0.5 * timestep) k2))) as [s3 k3].
  cbn [fst] in *.
  pose proof (calculator_rk4_effect self s3
                (vadd variables (vscale timestep k3))) as [R4 L4].
  destruct (calculator_rk4 self s3
              (vadd variables (vscale timestep k3))) as [s4 k4].
  cbn [fst] in *.
  assert (D1 : distance s1 = distance s) by apply R1.
  assert (D2 : distance s2 = distance s1) by apply R2.
  assert (D3 : distance s3 = distance s2) by apply R3.
  split.
  - apply (same_rows_trans s s3 s4); [| exact R4].
    apply (same_rows_trans s s2 s3); [| exact R3].
    apply (same_rows_trans s s1 s2); [exact R1 | exact R2].
  - intros Hlen Hlog. apply L4; [congruence |].
    apply L3; [congruence |]. apply L2; [congruence |]. now apply L1.
Qed.

Lemma RK4_body_one_row_more (self : Planet) (dt timestep : R) (s : Attrs) :
  one_row_more s (RK4_body self dt timestep s).
Proof.
  unfold RK4_body.
  pose proof (RK4_helper_effect self s dt) as [Hrows Hlog].
  destruct (RK4_helper self s dt) as [s1 [[[[[ctheta cr] cz] cv] cm] cx]].
  simpl in *. unfold one_row_more. eauto 12.
Qed.

Lemma FE_body_one_row_more (self : Planet) (timestep : R) (s : Attrs) :
  one_row_more s (FE_body self timestep s).
Proof.
  unfold FE_body.
  pose proof (log_consistent_record_eval self s
                (rhoa self (py_last (altitude s)))
                (rhoa self (py_last (altitude s)) * py_last (velocity s) ^ 2)
                (py_last (velocity s))) as Hlog.
  destruct (burst_test self s (rhoa self (py_last (altitude s)))
              (rhoa self (py_last (altitude s)) * py_last (velocity s) ^ 2)
              (py_last (velocity s))) as [bp drdt].
  simpl in Hlog. unfold one_row_more.
  do 8 eexists. split; [reflexivity |].
  split; [apply same_rows_record_eval | exact Hlog].
Qed.

Lemma body_of_one_row_more (k : Solver) (self : Planet) (dt : R) (s : Attrs) :
  one_row_more s (body_of k self dt s).
Proof.
  destruct k; simpl;
    [apply FE_body_one_row_more | apply RK4_body_one_row_more].
Qed.

Lemma run_solver_do_while (k : Solver) (fuel : nat) (self : Planet)
    (s : Attrs) (radius velocity angle init_altitude dt : R) :
  run_solver k fuel self s radius velocity angle init_altitude dt =
  do_while (body_of k self dt) (fun s => should_break s init_altitude) fuel
    (initial_lists s radius velocity angle init_altitude).
Proof. destruct k; reflexivity. Qed.

(** ** The invariant of the loops *)

Lemma loop_inv_initial (s : Attrs) (st dens radius velocity angle
    init_altitude : R) :
  loop_inv init_altitude st dens
    velocity (4 / 3 * PI * radius ^ 3 * dens) angle init_altitude 0 radius 0
    (initial_lists (begin_run s st dens) radius velocity angle init_altitude).
Proof.
  unfold loop_inv. split; [exists 1%nat; repeat split; lia |].
  split; [repeat split |]. split.
  - intros [|i] z m r v Hi Hz; [lia | discriminate].
  - split; [reflexivity |]. split; [reflexivity |].
    split; [reflexivity |]. intros k e Hk. discriminate.
Qed.

Lemma loop_inv_step (init_altitude st dens v0 m0 theta0 z0 x0 r0 t0 : R)
    (s s' : Attrs) :
  one_row_more s s' ->
  loop_inv init_altitude st dens v0 m0 theta0 z0 x0 r0 t0 s ->
  should_break s' init_altitude = false ->
  loop_inv init_altitude st dens v0 m0 theta0 z0 x0 r0 t0 s'.
Proof.
  intros (s1 & v & m & z & theta & x & r & t & -> & Hsame & Hlog1)
         ((n & Hn & Hlen) & Hfirst & Halive & Hst & Hdens & Hlog) Hbreak.
  destruct Hsame as (Ev & Em & Ea & Ez & Ex & Er & Et & Es & Ed).
  destruct Hlen as (Lv & Lm & La & Lz & Lx & Lr & Lt).
  destruct Hfirst as (Fv & Fm & Fa & Fz & Fx & Fr & Ft).
  apply should_break_alive in Hbreak. simpl in Hbreak.
  rewrite !py_last_app in Hbreak.
  unfold loop_inv. simpl. split.
  { exists (S n). split; [lia |]. unfold lists_length. simpl.
    rewrite !length_app, Ev, Em, Ea, Ez, Ex, Er, Et. simpl.
    repeat split; lia. }
  split.
  { unfold first_row. simpl. rewrite Ev, Em, Ea, Ez, Ex, Er, Et.
    rewrite !lookup_app_l by lia. repeat split; assumption. }
  split.
  { unfold rows_alive. simpl. rewrite Ev, Em, Ez, Er.
    intros i zi mi ri vi Hi Hzi Hmi Hri Hvi.
    destruct (Nat.lt_ge_cases i n) as [Hlt | Hge].
    - rewrite lookup_app_l in Hzi, Hmi, Hri, Hvi by lia.
      now apply (Halive i).
    - rewrite lookup_app_r in Hzi, Hmi, Hri, Hvi by lia.
      rewrite Lz in Hzi. rewrite Lm in Hmi. rewrite Lr in Hri.
      rewrite Lv in Hvi.
      destruct (i - n)%nat; simpl in *; [| discriminate].
      injection Hzi as <-. injection Hmi as <-. injection Hri as <-.
      injection Hvi as <-. exact Hbreak. }
  split; [congruence |]. split; [congruence |].
  apply Hlog1; [lia | exact Hlog].
Qed.

(** What a returned run looks like: the attributes are those of a state
    satisfying the invariant, plus one row that passes the test. *)
Lemma solve_atmospheric_entry_run (fuel : nat) (self : Planet) (s : Attrs)
    (radius velocity density strength angle init_altitude dt : R)
    (radians : bool) (backend : string) (r : Solved) :
  solve_atmospheric_entry fuel self s radius velocity density strength angle
    init_altitude dt radians backend = Some r ->
  exists s0,
    loop_inv init_altitude strength density
      velocity (4 / 3 * PI * radius ^ 3 * density)
      (if negb radians then angle / 180 * PI else angle)
      init_altitude 0 radius 0 s0
    /\ attrs r = body_of (snd (choose_solver backend)) self dt s0
    /\ should_break (attrs r) init_altitude = true
    /\ printed r = fst (choose_solver backend)
    /\ frame r = result_frame radians (attrs r).
Proof.
  unfold solve_atmospheric_entry. intros Hrun.
  destruct (choose_solver backend) as [out solver]. simpl.
  rewrite run_solver_do_while in Hrun.
  match type of Hrun with
  | match ?run with _ => _ end = _ => destruct run as [s'|] eqn:Hloop
  end; [| discriminate].
  injection Hrun as <-. simpl.
  apply (do_while_inv _ _
           (loop_inv init_altitude strength density velocity
              (4 / 3 * PI * radius ^ 3 * density)
              (if negb radians then angle / 180 * PI else angle)
              init_altitude 0 radius 0)) in Hloop.
  - destruct Hloop as (s0 & Hinv & -> & Hbreak). exists s0. auto.
  - intros s1 Hinv Hb. eapply loop_inv_step; eauto.
    apply body_of_one_row_more.
  - apply loop_inv_initial.
Qed.

Lemma but_last_map {A B : Type} (f : A -> B) (l : list A) :
  but_last (map f l) = map f (but_last l).
Proof.
  unfold but_last. rewrite length_map. symmetry. apply fmap_take.
Qed.





(** ** The demonstration run *)

Lemma demo_attrs_break : should_break demo_attrs 1 = true.
Proof.
  apply should_break_terminated. left.
  unfold demo_attrs, FE_body.
  destruct (burst_test _ _ _ _ _) as [bp drdt]. simpl.
  unfold py_last. simpl.
  replace (90 / 180 * PI) with (PI / 2) by lra.
  rewrite sin_PI2. lra.
Qed.

Lemma choose_solver_FE : choose_solver "FE" = ([], SolverFE).
Proof. reflexivity. Qed.


Lemma choose_solver_other (backend : string) :
  backend <> "FE"%string -> backend <> "RK4"%string ->
  choose_solver backend = (backend_warning backend, SolverFE).
Proof.
  intros Hfe Hrk. unfold choose_solver.
  destruct (String.eqb_spec backend "FE"); [contradiction |].
  destruct (String.eqb_spec backend "RK4"); [contradiction |].
  reflexivity.
Qed.

Lemma demo_run :
  solve_atmospheric_entry 1 earth fresh_attrs 1 1 1 1e5 90 1 1 false "FE"
  = Some (demo_solved []).
Proof.
  unfold solve_atmospheric_entry. rewrite choose_solver_FE.
  cbn [negb run_solver]. unfold solve_atmospheric_entry_FE.
  cbn [do_while]. fold demo_attrs. now rewrite demo_attrs_break.
Qed.

Lemma demo_run_Euler :
  solve_atmospheric_entry 1 earth fresh_attrs 1 1 1 1e5 90 1 1 false "Euler"
  = Some (demo_solved (backend_warning "Euler")).
Proof.
  unfold solve_atmospheric_entry.
  rewrite (choose_solver_other "Euler") by discriminate.
  cbn [negb run_solver]. unfold solve_atmospheric_entry_FE.
  cbn [do_while]. fold demo_attrs. now rewrite demo_attrs_break.
Qed.

(** ** The backend *)

(** C5, as the code has it. The backend names are ["FE"] and ["RK4"], and
    ["RK4"] is the default: ["FE"] selects the forward Euler solver and
    ["RK4"] the Runge-Kutta solver, both without a printed line; every other
    name, ["Euler"] included, prints the two warning lines and falls back
    to forward Euler. A returned call has printed what the choice prints
    and its attributes are those the chosen solver leaves. *)
Theorem backend_selection (fuel : nat) (self : Planet) (s : Attrs)
    (radius velocity density strength angle init_altitude dt : R)
    (radians : bool) :
  default_backend = "RK4"%string
  /\ choose_solver "FE" = ([], SolverFE)
  /\ choose_solver "RK4" = ([], SolverRK4)
  /\ (forall backend, backend <> "FE"%string -> backend <> "RK4"%string ->
        choose_solver backend = (backend_warning backend, SolverFE))
  /\ (forall backend r,
        solve_atmospheric_entry fuel self s radius velocity density strength
          angle init_altitude dt radians backend = Some r ->
        printed r = fst (choose_solver backend)
        /\ run_solver (snd (choose_solver backend)) fuel self
             (begin_run s strength density) radius velocity
             (if negb radians then angle / 180 * PI else angle)
             init_altitude dt
           = Some (attrs r)).
Proof.
  split; [reflexivity |]. split; [reflexivity |]. split; [reflexivity |].
  split; [apply choose_solver_other |].
  intros backend r. unfold solve_atmospheric_entry.
  destruct (choose_solver backend) as [out solver]. simpl.
  destruct (run_solver solver fuel self _ _ _ _ _ _) as [s'|];
    [| discriminate].
  intros Hr. injection Hr as <-. auto.
Qed.

Lemma backend_selection_witness :
  choose_solver "Euler" = (backend_warning "Euler", SolverFE)
  /\ printed (demo_solved (backend_warning "Euler"))
     = fst (choose_solver "Euler")
  /\ run_solver (snd (choose_solver "Euler")) 1 earth
       (begin_run fresh_attrs 1e5 1) 1 1
       (if negb false then 90 / 180 * PI else 90) 1 1
     = Some (attrs (demo_solved (backend_warning "Euler"))).
Proof.
  destruct (backend_selection 1 earth fresh_attrs 1 1 1 1e5 90 1 1 false)
    as (_ & _ & _ & Hother & Hrun).
  split.
  - apply Hother; discriminate.
  - apply (Hrun "Euler"%string). exact demo_run_Euler.
Defined.

(** C5 as stated fails: the name ["Euler"] takes the unsupported-name path.
    The call prints the two warning lines before it falls back to the
    forward Euler solver. *)
Lemma backend_Euler_counterexample :
  solve_atmospheric_entry 1 earth fresh_attrs 1 1 1 1e5 90 1 1 false "Euler"
  = Some (demo_solved (backend_warning "Euler"))
  /\ printed (demo_solved (backend_warning "Euler"))
     = ["solving method Euler not implemented yet."%string;
        "Falling back to FE for now"%string]
  /\ fst (choose_solver "Euler") <> [].
Proof.
  split; [exact demo_run_Euler |]. split; [reflexivity |]. discriminate.
Qed.

(** ** The returned series *)

Lemma result_frame_columns (radians : bool) (s1 : Attrs)
    (v m z theta x r t : R) :
  columns (result_frame radians (append_row s1 v m z theta x r t)) =
  [("velocity"%string, velocity s1); ("mass"%string, mass s1);
   ("angle"%string,
    if negb radians then map (fun i => i / PI * 180) (angle s1)
    else angle s1);
   ("altitude"%string, altitude s1); ("distance"%string, distance s1);
   ("radius"%string, radius s1); ("time"%string, alltimestep s1)]
  /\ nrows (result_frame radians (append_row s1 v m z theta x r t))
     = length (velocity s1).
Proof.
  unfold result_frame, DataFrame_of. simpl.
  rewrite !but_last_app. split; [| reflexivity].
  destruct radians; simpl.
  - now rewrite but_last_app.
  - rewrite map_app. simpl. now rewrite but_last_app.
Qed.

(** C3. The returned series is the solver's lists without their last
    entry. That last entry, the state that follows the last returned row,
    passes the test of the loop (altitude <= 0, mass <= 0, radius <= 0,
    velocity <= 0 or altitude >= init_altitude); no row appended before it
    (rows 1 and up of the returned series) does. *)
Theorem solve_atmospheric_entry_excludes_terminating_step (fuel : nat)
    (self : Planet) (s : Attrs)
    (radius0 velocity0 density0 strength0 angle0 init_altitude dt : R)
    (radians : bool) (backend : string) (r : Solved) :
  solve_atmospheric_entry fuel self s radius0 velocity0 density0 strength0
    angle0 init_altitude dt radians backend = Some r ->
  exists vs ms zs rs v m z rr,
    assoc "velocity" (columns (frame r)) = Some vs
    /\ assoc "mass" (columns (frame r)) = Some ms
    /\ assoc "altitude" (columns (frame r)) = Some zs
    /\ assoc "radius" (columns (frame r)) = Some rs
    /\ assoc "distance" (columns (frame r))
       = Some (but_last (distance (attrs r)))
    /\ assoc "time" (columns (frame r))
       = Some (but_last (alltimestep (attrs r)))
    /\ assoc "angle" (columns (frame r))
       = Some (but_last (if negb radians
                         then map (fun i => i / PI * 180) (angle (attrs r))
                         else angle (attrs r)))
    /\ df_wf (frame r)
    /\ lists_length (attrs r) (S (nrows (frame r)))
    /\ velocity (attrs r) = vs ++ [v] /\ mass (attrs r) = ms ++ [m]
    /\ altitude (attrs r) = zs ++ [z] /\ radius (attrs r) = rs ++ [rr]
    /\ terminated init_altitude z m rr v
    /\ forall i zi mi ri vi, (1 <= i)%nat ->
         zs !! i = Some zi -> ms !! i = Some mi ->
         rs !! i = Some ri -> vs !! i = Some vi ->
         ~ terminated init_altitude zi mi ri vi.
Proof.
  intros Hrun.
  destruct (solve_atmospheric_entry_run _ _ _ _ _ _ _ _ _ _ _ _ _ Hrun)
    as (s0 & Hinv & Hattrs & Hbreak & _ & Hframe).
  destruct (body_of_one_row_more (snd (choose_solver backend)) self dt s0)
    as (s1 & v & m & z & theta & x & rr & t & Hbody & Hsame & _).
  rewrite <- Hattrs in Hbody.
  destruct Hinv as ((n & Hn & Hlen) & _ & Halive & _).
  destruct Hsame as (Ev & Em & Ea & Ez & Ex & Er & Et & _).
  destruct Hlen as (Lv & Lm & La & Lz & Lx & Lr & Lt).
  apply should_break_terminated in Hbreak.
  rewrite Hframe, Hbody in *. simpl in Hbreak.
  rewrite !py_last_app in Hbreak.
  destruct (result_frame_columns radians s1 v m z theta x rr t) as [Hc Hn'].
  rewrite Hn'. unfold df_wf. rewrite Hn', Hc.
  exists (velocity s1), (mass s1), (altitude s1), (radius s1), v, m, z, rr.
  simpl. rewrite !but_last_app.
  repeat (split; [reflexivity |]). split.
  { destruct radians; simpl.
    - now rewrite but_last_app.
    - rewrite map_app. simpl. now rewrite but_last_app. }
  split.
  { repeat constructor; simpl; try congruence.
    destruct radians; simpl; [| rewrite length_map]; congruence. }
  split.
  { unfold lists_length. simpl. rewrite !length_app. simpl.
    rewrite Ev, Em, Ea, Ez, Ex, Er, Et, Lv, Lm, La, Lz, Lx, Lr, Lt.
    repeat split; lia. }
  repeat (split; [reflexivity |]). split; [exact Hbreak |].
  rewrite Ev, Em, Ez, Er. intros i zi mi ri vi. apply Halive.
Qed.

Lemma solve_atmospheric_entry_excludes_terminating_step_witness :
  exists vs ms zs rs v m z rr,
    assoc "velocity" (columns (frame (demo_solved []))) = Some vs
    /\ assoc "mass" (columns (frame (demo_solved []))) = Some ms
    /\ assoc "altitude" (columns (frame (demo_solved []))) = Some zs
    /\ assoc "radius" (columns (frame (demo_solved []))) = Some rs
    /\ velocity (attrs (demo_solved [])) = vs ++ [v]
    /\ mass (attrs (demo_solved [])) = ms ++ [m]
    /\ altitude (attrs (demo_solved [])) = zs ++ [z]
    /\ radius (attrs (demo_solved [])) = rs ++ [rr]
    /\ terminated 1 z m rr v.
Proof.
  destruct (solve_atmospheric_entry_excludes_terminating_step
              1 earth fresh_attrs 1 1 1 1e5 90 1 1 false "FE"
              (demo_solved []) demo_run)
    as (vs & ms & zs & rs & v & m & z & rr & Hv & Hm & Hz & Hr & _ & _ & _
        & _ & _ & Av & Am & Az & Ar & Hterm & _).
  exists vs, ms, zs, rs, v, m, z, rr. repeat split; assumption.
Defined.






(** ** The derivatives as a function *)

Lemma calculator_rk4_rates (self : Planet) (s : Attrs) (y : vec6) :
  snd (calculator_rk4 self s y) = rates self (strength s) (density s) y.
Proof.
  destruct y as [[[[[theta r] z] v] m] x].
  unfold calculator_rk4, rates, burst_test.
  destruct (Rgt_dec (rhoa self z * v ^ 2) (strength s)); reflexivity.
Qed.

Lemma calculator_rk4_evals (self : Planet) (s : Attrs) (y : vec6) :
  exists e, evals (fst (calculator_rk4 self s y)) = evals s ++ [e]
            /\ ev_velocity e = vel_of y.
Proof.
  destruct y as [[[[[theta r] z] v] m] x].
  unfold calculator_rk4.
  destruct (burst_test self s (rhoa self z) (rhoa self z * v ^ 2) v)
    as [bp drdt].
  simpl. eexists. split; reflexivity.
Qed.

Lemma RK4_helper_change (self : Planet) (s : Attrs) (timestep : R) :
  snd (RK4_helper self s timestep)
  = rk4_change self (strength s) (density s) timestep (last_row s)
  /\ exists new,
       evals (fst (RK4_helper self s timestep)) = evals s ++ new
       /\ map ev_velocity new
          = map vel_of
              (rk4_stages self (strength s) (density s) timestep
                 (last_row s)).
Proof.
  unfold RK4_helper, rk4_change, rk4_stages. fold (last_row s).
  set (y := last_row s).
  pose proof (calculator_rk4_rates self s y) as K1.
  pose proof (calculator_rk4_effect self s y) as [R1 _].
  destruct (calculator_rk4_evals self s y) as (e1 & E1 & V1).
  destruct (calculator_rk4 self s y) as [s1 k1]. cbn [fst snd] in *.
  destruct R1 as (_ & _ & _ & _ & _ & _ & _ & S1 & D1).
  set (y2 := vadd y (vscale (0.5 * timestep) k1)) in *.
  pose proof (calculator_rk4_rates self s1 y2) as K2.
  pose proof (calculator_rk4_effect self s1 y2) as [R2 _].
  destruct (calculator_rk4_evals self s1 y2) as (e2 & E2 & V2).
  destruct (calculator_rk4 self s1 y2) as [s2 k2]. cbn [fst snd] in *.
  destruct R2 as (_ & _ & _ & _ & _ & _ & _ & S2 & D2).
  set (y3 := vadd y (vscale (0.5 * timestep) k2)) in *.
  pose proof (calculator_rk4_rates self s2 y3) as K3.
  pose proof (calculator_rk4_effect self s2 y3) as [R3 _].
  destruct (calculator_rk4_evals self s2 y3) as (e3 & E3 & V3).
  destruct (calculator_rk4 self s2 y3) as [s3 k3]. cbn [fst snd] in *.
  destruct R3 as (_ & _ & _ & _ & _ & _ & _ & S3 & D3).
  set (y4 := vadd y (vscale timestep k3)) in *.
  pose proof (calculator_rk4_rates self s3 y4) as K4.
  destruct (calculator_rk4_evals self s3 y4) as (e4 & E4 & V4).
  destruct (calculator_rk4 self s3 y4) as [s4 k4]. cbn [fst snd] in *.
  rewrite S1 in K2. rewrite D1 in K2.
  rewrite S2, S1 in K3. rewrite D2, D1 in K3.
  rewrite S3, S2, S1 in K4. rewrite D3, D2, D1 in K4.
  subst k1. subst y2. subst k2. subst y3. subst k3. subst y4. subst k4.
  split; [reflexivity |].
  exists [e1; e2; e3; e4]. split.
  - rewrite E4, E3, E2, E1. rewrite <- !app_assoc. reflexivity.
  - simpl. now rewrite V1, V2, V3, V4.
Qed.

Lemma last_row_append_row (s1 : Attrs) (v m z theta x r t : R) :
  last_row (append_row s1 v m z theta x r t) = (theta, r, z, v, m, x).
Proof. unfold last_row. simpl. now rewrite !py_last_app. Qed.

Lemma last_row_same_rows (s s1 : Attrs) :
  same_rows s s1 -> last_row s1 = last_row s.
Proof.
  intros (Ev & Em & Ea & Ez & Ex & Er & _). unfold last_row.
  now rewrite Ev, Em, Ea, Ez, Ex, Er.
Qed.

(** The row that the Runge-Kutta body appends. *)
Lemma last_row_RK4_body (self : Planet) (dt : R) (s : Attrs) :
  last_row (RK4_body self dt dt s)
  = vadd (rk4_change self (strength s) (density s) dt (last_row s))
      (last_row s).
Proof.
  unfold RK4_body.
  pose proof (RK4_helper_change self s dt) as [Hc _].
  pose proof (RK4_helper_effect self s dt) as [Hrows _].
  destruct (RK4_helper self s dt) as [s1 k]. cbn [fst snd] in *.
  rewrite <- Hc. destruct k as [[[[[ctheta cr] cz] cv] cm] cx].
  rewrite last_row_append_row.
  destruct Hrows as (Ev & Em & Ea & Ez & Ex & Er & _).
  unfold last_row, vadd. now rewrite Ev, Em, Ea, Ez, Ex, Er.
Qed.

(** ** Mass along the trajectory *)









(** [solve_atmospheric_entry_run] with one more invariant of the loop. *)
Lemma solve_atmospheric_entry_run_with (J : Attrs -> Prop) (fuel : nat)
    (self : Planet) (s : Attrs)
    (radius0 velocity0 density0 strength0 angle0 init_altitude dt : R)
    (radians : bool) (backend : string) (r : Solved) :
  let theta0 := if negb radians then angle0 / 180 * PI else angle0 in
  let inv := loop_inv init_altitude strength0 density0 velocity0
               (4 / 3 * PI * radius0 ^ 3 * density0) theta0
               init_altitude 0 radius0 0 in
  J (initial_lists (begin_run s strength0 density0) radius0 velocity0
       theta0 init_altitude) ->
  (forall s1, inv s1 -> J s1 ->
     J (body_of (snd (choose_solver backend)) self dt s1)) ->
  solve_atmospheric_entry fuel self s radius0 velocity0 density0 strength0
    angle0 init_altitude dt radians backend = Some r ->
  exists s0,
    inv s0 /\ J s0
    /\ attrs r = body_of (snd (choose_solver backend)) self dt s0
    /\ frame r = result_frame radians (attrs r).
Proof.
  intros theta0 inv Hinit Hstep. unfold solve_atmospheric_entry.
  fold theta0. intros Hrun.
  destruct (choose_solver backend) as [out solver]. simpl in *.
  rewrite run_solver_do_while in Hrun.
  match type of Hrun with
  | match ?run with _ => _ end = _ => destruct run as [s'|] eqn:Hloop
  end; [| discriminate].
  injection Hrun as <-. simpl.
  apply (do_while_inv _ _ (fun s1 => inv s1 /\ J s1)) in Hloop.
  - destruct Hloop as (s0 & [Hinv HJ] & -> & Hbreak). exists s0. auto.
  - intros s1 [Hinv HJ] Hb. split.
    + eapply loop_inv_step; eauto. apply body_of_one_row_more.
    + now apply Hstep.
  - split; [apply loop_inv_initial | exact Hinit].
Qed.


(** ** A Runge-Kutta step that gains mass *)















Lemma should_break_last_row (s : Attrs) (init_altitude : R) :
  should_break s init_altitude = true <->
  terminated init_altitude (alt_of (last_row s)) (mass_of (last_row s))
    (rad_of (last_row s)) (vel_of (last_row s)).
Proof. apply should_break_terminated. Qed.









(** ** The history is ghost *)

(** The history of evaluations is never read: running a body on attributes
    whose history was erased gives the same attributes, history apart, and
    the test of the loop does not look at it. *)
Lemma calculator_rk4_forget (self : Planet) (s : Attrs) (y : vec6) :
  snd (calculator_rk4 self (forget_history s) y)
  = snd (calculator_rk4 self s y)
  /\ forget_history (fst (calculator_rk4 self (forget_history s) y))
     = forget_history (fst (calculator_rk4 self s y)).
Proof.
  destruct y as [[[[[theta r] z] v] m] x].
  unfold calculator_rk4, burst_test. simpl.
  destruct (Rgt_dec (rhoa self z * (v * (v * 1))) (strength s));
    split; reflexivity.
Qed.

Lemma calculator_rk4_forget_eq (self : Planet) (s s' : Attrs) (y : vec6) :
  forget_history s = forget_history s' ->
  snd (calculator_rk4 self s y) = snd (calculator_rk4 self s' y)
  /\ forget_history (fst (calculator_rk4 self s y))
     = forget_history (fst (calculator_rk4 self s' y)).
Proof.
  intros Heq.
  destruct (calculator_rk4_forget self s y) as [<- <-].
  destruct (calculator_rk4_forget self s' y) as [<- <-].
  now rewrite Heq.
Qed.

Lemma last_row_forget (s : Attrs) : last_row (forget_history s) = last_row s.
Proof. reflexivity. Qed.

Lemma forget_history_last_row (s s' : Attrs) :
  forget_history s = forget_history s' -> last_row s = last_row s'.
Proof.
  intros Heq. rewrite <- (last_row_forget s), <- (last_row_forget s').
  now rewrite Heq.
Qed.

Lemma RK4_helper_forget (self : Planet) (s : Attrs) (timestep : R) :
  snd (RK4_helper self (forget_history s) timestep)
  = snd (RK4_helper self s timestep)
  /\ forget_history (fst (RK4_helper self (forget_history s) timestep))
     = forget_history (fst (RK4_helper self s timestep)).
Proof.
  unfold RK4_helper. fold (last_row s). fold (last_row (forget_history s)).
  rewrite last_row_forget. set (y := last_row s).
  destruct (calculator_rk4_forget self s y) as [K1 F1].
  destruct (calculator_rk4 self (forget_history s) y) as [t1 k1].
  destruct (calculator_rk4 self s y) as [s1 k1']. cbn [fst snd] in *.
  subst k1'.
  destruct (calculator_rk4_forget_eq self t1 s1
              (vadd y (vscale (0.5 * timestep) k1)) F1) as [K2 F2].
  destruct (calculator_rk4 self t1 _) as [t2 k2].
  destruct (calculator_rk4 self s1 _) as [s2 k2']. cbn [fst snd] in *.
  subst k2'.
  destruct (calculator_rk4_forget_eq self t2 s2
              (vadd y (vscale (0.5 * timestep) k2)) F2) as [K3 F3].
  destruct (calculator_rk4 self t2 _) as [t3 k3].
  destruct (calculator_rk4 self s2 _) as [s3 k3']. cbn [fst snd] in *.
  subst k3'.
  destruct (calculator_rk4_forget_eq self t3 s3
              (vadd y (vscale timestep k3)) F3) as [K4 F4].
  destruct (calculator_rk4 self t3 _) as [t4 k4].
  destruct (calculator_rk4 self s3 _) as [s4 k4']. cbn [fst snd] in *.
  subst k4'. split; [reflexivity | exact F4].
Qed.

Lemma forget_history_append_row (s s' : Attrs) (v m z theta x r t : R) :
  forget_history s = forget_history s' ->
  forget_history (append_row s v m z theta x r t)
  = forget_history (append_row s' v m z theta x r t).
Proof.
  unfold forget_history, append_row. simpl. intros Heq.
  injection Heq as -> -> -> -> -> -> -> -> -> ->. reflexivity.
Qed.

Lemma history_is_ghost (k : Solver) (self : Planet) (dt : R) (s : Attrs)
    (init_altitude : R) :
  forget_history (body_of k self dt (forget_history s))
  = forget_history (body_of k self dt s)
  /\ should_break (forget_history s) init_altitude
     = should_break s init_altitude.
Proof.
  split; [| reflexivity]. destruct k; simpl.
  - unfold FE_body, burst_test. simpl.
    destruct (Rgt_dec _ (strength s)); reflexivity.
  - unfold RK4_body.
    destruct (RK4_helper_forget self s dt) as [Hk Hs].
    destruct (RK4_helper self (forget_history s) dt) as [t1 c1].
    destruct (RK4_helper self s dt) as [s1 c1']. cbn [fst snd] in *.
    subst c1'. destruct c1 as [[[[[ctheta cr] cz] cv] cm] cx].
    pose proof (forget_history_last_row _ _ Hs) as Hl.
    unfold last_row in Hl.
    injection Hl as -> -> -> -> -> ->.
    assert (Ht : py_last (alltimestep t1) = py_last (alltimestep s1)).
    { unfold forget_history in Hs. now injection Hs as _ _ _ _ _ _ _ _ _ ->. }
    rewrite Ht. now apply forget_history_append_row.
Qed.

(** ** More about the calls *)

(** More fuel does not change what a call returns. *)
Lemma solve_atmospheric_entry_fuel (fuel fuel' : nat) (self : Planet)
    (s : Attrs)
    (radius0 velocity0 density0 strength0 angle0 init_altitude dt : R)
    (radians : bool) (backend : string) (r : Solved) :
  (fuel <= fuel')%nat ->
  solve_atmospheric_entry fuel self s radius0 velocity0 density0 strength0
    angle0 init_altitude dt radians backend = Some r ->
  solve_atmospheric_entry fuel' self s radius0 velocity0 density0 strength0
    angle0 init_altitude dt radians backend = Some r.
Proof.
  intros Hle. unfold solve_atmospheric_entry.
  destruct (choose_solver backend) as [out solver].
  rewrite !run_solver_do_while.
  match goal with
  | |- match ?run with _ => _ end = _ -> _ =>
      destruct run as [s'|] eqn:Hloop
  end; [| discriminate].
  now rewrite (do_while_fuel_mono _ _ fuel fuel' _ s' Hle Hloop).
Qed.

(** The planets of the runs are what the constructor builds. *)
Lemma Planet_init_earth (fs : filesystem) :
  Planet_init fs "exponential" "AltitudeDensityTable.csv"
    1 0.1 1e7 1e-3 0.3 6371e3 9.81 8000 1.2
  = ([], Ok earth).
Proof. reflexivity. Qed.

Lemma Planet_init_coarse_planet (fs : filesystem) :
  Planet_init fs "constant" "AltitudeDensityTable.csv"
    1 12 1 (1 / 1000) 1 1000000 (1 / 1000) 1 (1 / 5)
  = ([], Ok coarse_planet).
Proof. reflexivity. Qed.

(** A table that already has a [dedz] column is refused: [insert] raises
    [ValueError]. *)
Lemma calculate_energy_twice :
  calculate_energy {[0%nat := two_rows_dedz]} 0%nat = Raise ValueError.
Proof.
  unfold calculate_energy, deref. rewrite lookup_singleton_eq. reflexivity.
Qed.

(** With no row, the column to insert has one entry too many. *)
Lemma calculate_energy_no_row :
  calculate_energy
    {[0%nat := DataFrame_of [("velocity"%string, []); ("mass"%string, []);
                             ("altitude"%string, [])]]} 0%nat
  = Raise ValueError.
Proof.
  unfold calculate_energy, deref. rewrite lookup_singleton_eq. reflexivity.
Qed.

(** * Further properties *)

(** ** [calculate_energy]: errors and sign *)

Lemma calculate_energy_inv (sigma sigma' : store) (result l' : loc) :
  calculate_energy sigma result = Ok (sigma', l') ->
  exists df mass velocity altitude,
    sigma !! result = Some df
    /\ assoc "mass" (columns df) = Some mass
    /\ assoc "velocity" (columns df) = Some velocity
    /\ assoc "altitude" (columns df) = Some altitude
    /\ assoc "dedz" (columns df) = None
    /\ length (dedz_values mass velocity altitude) = nrows df
    /\ l' = result
    /\ sigma' = <[result := {| nrows := nrows df;
                               columns := columns df
                                 ++ [("dedz"%string,
                                      dedz_values mass velocity altitude)] |}]>
                  sigma.
Proof.
  unfold calculate_energy, deref, getitem, df_insert.
  destruct (sigma !! result) as [df|] eqn:Hdf; cbn [bind]; [| discriminate].
  destruct (assoc "mass" (columns df)) as [mass|] eqn:Hm; cbn [bind];
    [| discriminate].
  destruct (assoc "velocity" (columns df)) as [velocity|] eqn:Hv; cbn [bind];
    [| discriminate].
  destruct (assoc "altitude" (columns df)) as [altitude|] eqn:Hz; cbn [bind];
    [| discriminate].
  destruct (assoc "dedz" (columns df)) as [old|] eqn:Hd; cbn [bind];
    [discriminate |].
  destruct (Nat.eqb_spec (length (dedz_values mass velocity altitude))
              (nrows df)) as [Hlen | Hlen]; cbn [negb bind];
    [| discriminate].
  rewrite Nat.ltb_irrefl. cbn [bind]. rewrite firstn_all, drop_all.
  intros Heq. injection Heq as <- <-.
  exists df, mass, velocity, altitude. repeat split; auto.
Qed.

(** X1. [calculate_energy] cannot be applied twice to the same table: after
    a call that succeeds, a second call on the returned table raises
    [ValueError], because [insert] refuses the column name [dedz] that is now
    there. *)
Theorem calculate_energy_not_repeatable (sigma sigma' : store)
    (result l' : loc) :
  calculate_energy sigma result = Ok (sigma', l') ->
  calculate_energy sigma' l' = Raise ValueError.
Proof.
  intros Hcall.
  destruct (calculate_energy_inv _ _ _ _ Hcall)
    as (df & mass & velocity & altitude & Hdf & Hm & Hv & Hz & Hnone & _
        & -> & ->).
  unfold calculate_energy, deref, getitem, df_insert.
  rewrite lookup_insert_eq. simpl.
  rewrite !assoc_app_last, Hm, Hv, Hz, Hnone. simpl. reflexivity.
Qed.

Lemma calculate_energy_not_repeatable_witness :
  exists sigma',
    calculate_energy {[0%nat := two_rows]} 0%nat = Ok (sigma', 0%nat)
    /\ calculate_energy sigma' 0%nat = Raise ValueError.
Proof.
  eexists. split.
  - apply (calculate_energy_run _ _ two_rows);
      [apply lookup_singleton_eq | repeat constructor | simpl; lia
      | reflexivity ..].
  - eapply calculate_energy_not_repeatable.
    apply (calculate_energy_run _ _ two_rows);
      [apply lookup_singleton_eq | repeat constructor | simpl; lia
      | reflexivity ..].
Defined.



(** X3. Where the kinetic energy does not grow from one row to the next
    while the altitude drops, the entry that [calculate_energy] stores is
    not negative: [dedz] counts energy lost on the way down as positive. *)
Theorem dedz_nonnegative_on_descent (sigma sigma' : store) (result l' : loc)
    (df df' : DataFrame) (mass velocity altitude dedz : list R)
    (i : nat) (m0 v0 z0 m1 v1 z1 d : R) :
  sigma !! result = Some df ->
  df_wf df ->
  assoc "mass" (columns df) = Some mass ->
  assoc "velocity" (columns df) = Some velocity ->
  assoc "altitude" (columns df) = Some altitude ->
  calculate_energy sigma result = Ok (sigma', l') ->
  sigma' !! l' = Some df' ->
  assoc "dedz" (columns df') = Some dedz ->
  mass !! i = Some m0 -> velocity !! i = Some v0 ->
  altitude !! i = Some z0 ->
  mass !! S i = Some m1 -> velocity !! S i = Some v1 ->
  altitude !! S i = Some z1 ->
  dedz !! S i = Some d ->
  0.5 * m1 * v1 ^ 2 <= 0.5 * m0 * v0 ^ 2 -> z1 < z0 ->
  0 <= d.
Proof.
  intros Hdf Hwf Hm Hv Hz Hcall Hdf' Hd Hm0 Hv0 Hz0 Hm1 Hv1 Hz1 Hdi Hke Hdown.
  destruct (calculate_energy_inv _ _ _ _ Hcall)
    as (df0 & mass0 & velocity0 & altitude0 & Hdf0 & Hm' & Hv' & Hz' & Hnone
        & _ & -> & ->).
  rewrite Hdf in Hdf0. injection Hdf0 as <-.
  rewrite Hm in Hm'. injection Hm' as <-.
  rewrite Hv in Hv'. injection Hv' as <-.
  rewrite Hz in Hz'. injection Hz' as <-.
  rewrite lookup_insert_eq in Hdf'. injection Hdf' as <-.
  simpl in Hd. rewrite assoc_app_last, Hnone in Hd. simpl in Hd.
  injection Hd as <-.
  pose proof (assoc_length _ _ _ Hwf Hm) as Lm.
  pose proof (assoc_length _ _ _ Hwf Hv) as Lv.
  pose proof (assoc_length _ _ _ Hwf Hz) as Lz.
  rewrite (lookup_dedz_values_S _ _ _ i m0 v0 z0 m1 v1 z1) in Hdi
    by congruence.
  injection Hdi as <-.
  assert (Hq : (0.5 * m1 * v1 ^ 2 - 0.5 * m0 * v0 ^ 2) / (z0 - z1) <= 0).
  { unfold Rdiv.
    assert (0 < / (z0 - z1)) by (apply Rinv_0_lt_compat; lra). nra. }
  assert (Hc : 0 < / (4.184 * 10 ^ 9)) by (apply Rinv_0_lt_compat; lra).
  unfold Rdiv in *. nra.
Qed.

Lemma dedz_nonnegative_on_descent_witness :
  exists d,
    dedz_values [2; 2] [2; 1] [2; 1] !! 1%nat = Some d /\ 0 <= d.
Proof.
  eexists. split; [reflexivity |].
  eapply (dedz_nonnegative_on_descent {[0%nat := two_rows]} _ 0%nat 0%nat
            two_rows _ [2; 2] [2; 1] [2; 1] _ 0%nat 2 2 2 2 1 1).
  - apply lookup_singleton_eq.
  - repeat constructor.
  - reflexivity.
  - reflexivity.
  - reflexivity.
  - apply (calculate_energy_run _ _ two_rows);
      [apply lookup_singleton_eq | repeat constructor | simpl; lia
      | reflexivity ..].
  - apply lookup_insert_eq.
  - reflexivity.
  - reflexivity.
  - reflexivity.
  - reflexivity.
  - reflexivity.
  - reflexivity.
  - reflexivity.
  - reflexivity.
  - lra.
  - lra.
Defined.

(** ** [analyse_outcome]: errors and bounds *)

Lemma analyse_outcome_inv (sigma : store) (result : loc) (o : Outcome) :
  analyse_outcome sigma result = Ok o ->
  exists df dedz mass velocity distance burstidx peak m0 v0 mb vb xb,
    sigma !! result = Some df
    /\ assoc "dedz" (columns df) = Some dedz
    /\ assoc "mass" (columns df) = Some mass
    /\ assoc "velocity" (columns df) = Some velocity
    /\ assoc "distance" (columns df) = Some distance
    /\ idxmax dedz = Ok burstidx
    /\ dedz !! burstidx = Some peak
    /\ mass !! 0%nat = Some m0 /\ velocity !! 0%nat = Some v0
    /\ mass !! burstidx = Some mb /\ velocity !! burstidx = Some vb
    /\ distance !! burstidx = Some xb
    /\ burst_peak_dedz o = peak /\ burst_distance o = xb
    /\ let initial_energy := 0.5 * m0 * v0 ^ 2 / (4.184 * 10 ^ 12) in
       let energy_at_burst := 0.5 * mb * vb ^ 2 / (4.184 * 10 ^ 12) in
       (S burstidx = nrows df
        /\ outcome o = "Cratering"%string /\ burst_altitude o = 0
        /\ burst_energy o
           = py_max energy_at_burst (initial_energy - energy_at_burst))
       \/ (S burstidx <> nrows df
           /\ outcome o = "Airburst"%string
           /\ burst_energy o = initial_energy - energy_at_burst
           /\ exists altitude,
                assoc "altitude" (columns df) = Some altitude
                /\ altitude !! burstidx = Some (burst_altitude o)).
Proof.
  unfold analyse_outcome, deref, getitem, at_label.
  destruct (sigma !! result) as [df|] eqn:Hdf; cbn [bind]; [| discriminate].
  destruct (assoc "dedz" (columns df)) as [dedz|] eqn:Hd; cbn [bind];
    [| discriminate].
  destruct (idxmax dedz) as [b|] eqn:Hb; cbn [bind]; [| discriminate].
  destruct (assoc "mass" (columns df)) as [mass|] eqn:Hm; cbn [bind];
    [| discriminate].
  destruct (assoc "velocity" (columns df)) as [velocity|] eqn:Hv;
    cbn [bind]; [| discriminate].
  destruct (mass !! 0%nat) as [m0|] eqn:Hm0; cbn [bind]; [| discriminate].
  destruct (velocity !! 0%nat) as [v0|] eqn:Hv0; cbn [bind];
    [| discriminate].
  destruct (mass !! b) as [mb|] eqn:Hmb; cbn [bind]; [| discriminate].
  destruct (velocity !! b) as [vb|] eqn:Hvb; cbn [bind]; [| discriminate].
  destruct (Z.eqb_spec (Z.of_nat b) (Z.of_nat (nrows df) - 1))
    as [Heq | Hne]; cbn [bind].
  - destruct (dedz !! b) as [peak|] eqn:Hp; cbn [bind]; [| discriminate].
    destruct (assoc "distance" (columns df)) as [distance|] eqn:Hx;
      cbn [bind]; [| discriminate].
    destruct (distance !! b) as [xb|] eqn:Hxb; cbn [bind]; [| discriminate].
    intros Ho. injection Ho as <-.
    exists df, dedz, mass, velocity, distance, b, peak, m0, v0, mb, vb, xb.
    repeat (split; [reflexivity || assumption |]). cbn zeta.
    left. split; [lia |]. repeat split; reflexivity.
  - destruct (assoc "altitude" (columns df)) as [altitude|] eqn:Hz;
      cbn [bind]; [| discriminate].
    destruct (altitude !! b) as [zb|] eqn:Hzb; cbn [bind]; [| discriminate].
    destruct (dedz !! b) as [peak|] eqn:Hp; cbn [bind]; [| discriminate].
    destruct (assoc "distance" (columns df)) as [distance|] eqn:Hx;
      cbn [bind]; [| discriminate].
    destruct (distance !! b) as [xb|] eqn:Hxb; cbn [bind]; [| discriminate].
    intros Ho. injection Ho as <-.
    exists df, dedz, mass, velocity, distance, b, peak, m0, v0, mb, vb, xb.
    repeat (split; [reflexivity || assumption |]). cbn zeta.
    right. split; [lia |]. split; [reflexivity |]. split; [reflexivity |].
    exists altitude. split; assumption.
Qed.

Lemma result_frame_no_dedz (radians : bool) (s : Attrs) :
  assoc "dedz" (columns (result_frame radians s)) = None.
Proof. reflexivity. Qed.

Lemma solve_atmospheric_entry_frame (fuel : nat) (self : Planet) (s : Attrs)
    (radius0 velocity0 density0 strength0 angle0 init_altitude dt : R)
    (radians : bool) (backend : string) (r : Solved) :
  solve_atmospheric_entry fuel self s radius0 velocity0 density0 strength0
    angle0 init_altitude dt radians backend = Some r ->
  exists vs ms thetas zs xs rs ts,
    columns (frame r) =
      [("velocity"%string, vs); ("mass"%string, ms);
       ("angle"%string, thetas); ("altitude"%string, zs);
       ("distance"%string, xs); ("radius"%string, rs);
       ("time"%string, ts)]
    /\ (1 <= nrows (frame r))%nat
    /\ df_wf (frame r).
Proof.
  intros Hrun.
  destruct (solve_atmospheric_entry_run _ _ _ _ _ _ _ _ _ _ _ _ _ Hrun)
    as (s0 & Hinv & Hattrs & _ & _ & Hframe).
  destruct (body_of_one_row_more (snd (choose_solver backend)) self dt s0)
    as (s1 & v & m & z & theta & x & rr & t & Hbody & Hsame & _).
  rewrite <- Hattrs in Hbody.
  destruct Hinv as ((n & Hn & Hlen) & _).
  destruct Hsame as (Ev & Em & Ea & Ez & Ex & Er & Et & _).
  destruct Hlen as (Lv & Lm & La & Lz & Lx & Lr & Lt).
  destruct (result_frame_columns radians s1 v m z theta x rr t) as [Hc Hn'].
  rewrite Hframe, Hbody. unfold df_wf.
  rewrite Hn', Hc, Ev, Em, Ea, Ez, Ex, Er, Et.
  do 7 eexists. split; [reflexivity |]. split; [lia |].
  repeat constructor; simpl; try congruence.
  destruct radians; simpl; [| rewrite length_map]; congruence.
Qed.

(** X4. The table that [solve_atmospheric_entry] returns cannot be handed
    to [analyse_outcome] as it is: it has no [dedz] column, and the call
    raises [KeyError]. *)
Theorem analyse_outcome_needs_dedz (fuel : nat) (self : Planet) (s : Attrs)
    (radius0 velocity0 density0 strength0 angle0 init_altitude dt : R)
    (radians : bool) (backend : string) (r : Solved)
    (sigma : store) (result : loc) :
  solve_atmospheric_entry fuel self s radius0 velocity0 density0 strength0
    angle0 init_altitude dt radians backend = Some r ->
  sigma !! result = Some (frame r) ->
  analyse_outcome sigma result = Raise KeyError.
Proof.
  intros Hrun Hdf.
  destruct (solve_atmospheric_entry_run _ _ _ _ _ _ _ _ _ _ _ _ _ Hrun)
    as (_ & _ & _ & _ & _ & Hframe).
  unfold analyse_outcome, deref, getitem. rewrite Hdf. cbn [bind].
  now rewrite Hframe, result_frame_no_dedz.
Qed.

Lemma analyse_outcome_needs_dedz_witness :
  analyse_outcome {[0%nat := frame (demo_solved [])]} 0%nat = Raise KeyError.
Proof.
  apply (analyse_outcome_needs_dedz 1 earth fresh_attrs 1 1 1 1e5 90 1 1
           false "FE" (demo_solved []) _ 0%nat demo_run).
  apply lookup_singleton_eq.
Defined.

Lemma analyse_outcome_ok (sigma : store) (result : loc) (df : DataFrame)
    (dedz mass velocity altitude distance : list R) :
  sigma !! result = Some df ->
  df_wf df -> (1 <= nrows df)%nat ->
  assoc "dedz" (columns df) = Some dedz ->
  assoc "mass" (columns df) = Some mass ->
  assoc "velocity" (columns df) = Some velocity ->
  assoc "altitude" (columns df) = Some altitude ->
  assoc "distance" (columns df) = Some distance ->
  exists o, analyse_outcome sigma result = Ok o.
Proof.
  intros Hdf Hwf Hn Hd Hm Hv Hz Hx.
  pose proof (assoc_length _ _ _ Hwf Hd) as Ld.
  pose proof (assoc_length _ _ _ Hwf Hm) as Lm.
  pose proof (assoc_length _ _ _ Hwf Hv) as Lv.
  pose proof (assoc_length _ _ _ Hwf Hz) as Lz.
  pose proof (assoc_length _ _ _ Hwf Hx) as Lx.
  destruct (idxmax_first_max dedz) as (k & peak & Hidx & Hfm); [lia |].
  pose proof (first_max_lt_length _ _ _ Hfm) as Hk.
  destruct (lookup_lt_is_Some_2 mass 0) as [m0 Hm0]; [lia |].
  destruct (lookup_lt_is_Some_2 velocity 0) as [v0 Hv0]; [lia |].
  destruct (lookup_lt_is_Some_2 mass k) as [mb Hmb]; [lia |].
  destruct (lookup_lt_is_Some_2 velocity k) as [vb Hvb]; [lia |].
  destruct (lookup_lt_is_Some_2 altitude k) as [zb Hzb]; [lia |].
  destruct (lookup_lt_is_Some_2 distance k) as [xb Hxb]; [lia |].
  assert (Hpeak : dedz !! k = Some peak) by apply Hfm.
  unfold analyse_outcome, deref. rewrite Hdf. cbn [bind].
  rewrite (getitem_some _ _ _ Hd). cbn [bind]. rewrite Hidx. cbn [bind].
  rewrite (getitem_some _ _ _ Hm). cbn [bind].
  rewrite (getitem_some _ _ _ Hv). cbn [bind].
  rewrite (at_label_some _ _ _ Hm0). cbn [bind].
  rewrite (at_label_some _ _ _ Hv0). cbn [bind].
  rewrite (at_label_some _ _ _ Hmb). cbn [bind].
  rewrite (at_label_some _ _ _ Hvb). cbn [bind].
  destruct (Z.of_nat k =? Z.of_nat (nrows df) - 1)%Z; cbn [bind].
  - rewrite (at_label_some _ _ _ Hpeak). cbn [bind].
    rewrite (getitem_some _ _ _ Hx). cbn [bind].
    rewrite (at_label_some _ _ _ Hxb). cbn [bind]. eexists. reflexivity.
  - rewrite (getitem_some _ _ _ Hz). cbn [bind].
    rewrite (at_label_some _ _ _ Hzb). cbn [bind].
    rewrite (at_label_some _ _ _ Hpeak). cbn [bind].
    rewrite (getitem_some _ _ _ Hx). cbn [bind].
    rewrite (at_label_some _ _ _ Hxb). cbn [bind]. eexists. reflexivity.
Qed.

(** X5. The three methods compose. For every call of
    [solve_atmospheric_entry] that returns, [calculate_energy] on the
    returned table succeeds, and [analyse_outcome] on its result succeeds
    with an outcome that is ["Airburst"] or ["Cratering"] and a peak
    [burst_peak_dedz] that is not negative (the first entry of [dedz] is 0,
    so the maximum is at least 0). *)
Theorem solve_then_energy_then_outcome (fuel : nat) (self : Planet)
    (s : Attrs)
    (radius0 velocity0 density0 strength0 angle0 init_altitude dt : R)
    (radians : bool) (backend : string) (r : Solved)
    (sigma : store) (result : loc) :
  solve_atmospheric_entry fuel self s radius0 velocity0 density0 strength0
    angle0 init_altitude dt radians backend = Some r ->
  sigma !! result = Some (frame r) ->
  exists sigma' o,
    calculate_energy sigma result = Ok (sigma', result)
    /\ analyse_outcome sigma' result = Ok o
    /\ (outcome o = "Airburst"%string \/ outcome o = "Cratering"%string)
    /\ 0 <= burst_peak_dedz o.
Proof.
  intros Hrun Hdf.
  destruct (solve_atmospheric_entry_frame _ _ _ _ _ _ _ _ _ _ _ _ _ Hrun)
    as (vs & ms & thetas & zs & xs & rs & ts & Hc & Hn & Hwf).
  assert (Hm : assoc "mass" (columns (frame r)) = Some ms)
    by (rewrite Hc; reflexivity).
  assert (Hv : assoc "velocity" (columns (frame r)) = Some vs)
    by (rewrite Hc; reflexivity).
  assert (Hz : assoc "altitude" (columns (frame r)) = Some zs)
    by (rewrite Hc; reflexivity).
  assert (Hx : assoc "distance" (columns (frame r)) = Some xs)
    by (rewrite Hc; reflexivity).
  assert (Hnone : assoc "dedz" (columns (frame r)) = None)
    by (rewrite Hc; reflexivity).
  pose proof (calculate_energy_run sigma result (frame r) ms vs zs
                Hdf Hwf Hn Hm Hv Hz Hnone) as Hcall.
  set (df' := {| nrows := nrows (frame r);
                 columns := columns (frame r)
                   ++ [("dedz"%string, dedz_values ms vs zs)] |}) in *.
  assert (Hlen : length (dedz_values ms vs zs) = nrows (frame r)).
  { apply length_dedz_values; eauto using assoc_length. }
  assert (Hwf' : df_wf df').
  { unfold df_wf, df'. simpl. apply Forall_app. split; [exact Hwf |].
    constructor; [exact Hlen | constructor]. }
  assert (Hd' : assoc "dedz" (columns df') = Some (dedz_values ms vs zs)).
  { unfold df'. simpl. now rewrite assoc_app_last, Hnone. }
  assert (Hold : forall name col, assoc name (columns (frame r)) = Some col ->
                   assoc name (columns df') = Some col).
  { intros name col Hcol. unfold df'. simpl.
    now rewrite assoc_app_last, Hcol. }
  destruct (analyse_outcome_ok (<[result := df']> sigma) result df'
              (dedz_values ms vs zs) ms vs zs xs) as [o Ho]; auto.
  { apply lookup_insert_eq. }
  exists (<[result := df']> sigma), o.
  split; [exact Hcall |]. split; [exact Ho |].
  destruct (analyse_outcome_inv _ _ _ Ho)
    as (df0 & dedz & mass & velocity & distance & b & peak & m0 & v0 & mb
        & vb & xb & Hdf0 & Hd0 & _ & _ & _ & Hidx & Hp & _ & _ & _ & _ & _
        & Hpeak & _ & Hkind).
  rewrite lookup_insert_eq in Hdf0. injection Hdf0 as <-.
  rewrite Hd' in Hd0. injection Hd0 as <-.
  split.
  - destruct Hkind as [(_ & Hk & _) | (_ & Hk & _)]; auto.
  - rewrite Hpeak.
    destruct (idxmax_first_max (dedz_values ms vs zs)) as (k & pk & Hk & Hfm);
      [lia |].
    rewrite Hidx in Hk. injection Hk as <-.
    destruct Hfm as (Hpk & Hall & _).
    rewrite Hp in Hpk. injection Hpk as <-.
    pose proof (Hall 0%nat _ (lookup_dedz_values_0 ms vs zs)). lra.
Qed.

Lemma solve_then_energy_then_outcome_witness :
  exists sigma' o,
    calculate_energy {[0%nat := frame (demo_solved [])]} 0%nat
      = Ok (sigma', 0%nat)
    /\ analyse_outcome sigma' 0%nat = Ok o
    /\ (outcome o = "Airburst"%string \/ outcome o = "Cratering"%string)
    /\ 0 <= burst_peak_dedz o.
Proof.
  apply (solve_then_energy_then_outcome 1 earth fresh_attrs 1 1 1 1e5 90 1 1
           false "FE" (demo_solved []) _ 0%nat demo_run).
  apply lookup_singleton_eq.
Defined.

(** X6. When [analyse_outcome] reports ["Cratering"], the burst altitude is 0
    and the reported burst energy is at least half of the initial kinetic
    energy [0.5 * mass[0] * velocity[0]^2 / 4.184e12]: it is the larger of the
    energy at the peak and the energy lost before it. *)
Theorem cratering_energy_at_least_half (sigma : store) (result : loc)
    (o : Outcome) (df : DataFrame) (mass velocity : list R) (m0 v0 : R) :
  analyse_outcome sigma result = Ok o ->
  sigma !! result = Some df ->
  assoc "mass" (columns df) = Some mass ->
  assoc "velocity" (columns df) = Some velocity ->
  mass !! 0%nat = Some m0 -> velocity !! 0%nat = Some v0 ->
  outcome o = "Cratering"%string ->
  burst_altitude o = 0
  /\ 0.5 * m0 * v0 ^ 2 / (4.184 * 10 ^ 12) / 2 <= burst_energy o.
Proof.
  intros Ho Hdf Hm Hv Hm0 Hv0 Hkind.
  destruct (analyse_outcome_inv _ _ _ Ho)
    as (df0 & dedz & mass0 & velocity0 & distance & b & peak & m0' & v0' & mb
        & vb & xb & Hdf0 & _ & Hm' & Hv' & _ & _ & _ & Hm0' & Hv0' & _ & _ & _
        & _ & _ & Hcase).
  rewrite Hdf in Hdf0. injection Hdf0 as <-.
  rewrite Hm in Hm'. injection Hm' as <-.
  rewrite Hv in Hv'. injection Hv' as <-.
  rewrite Hm0 in Hm0'. injection Hm0' as <-.
  rewrite Hv0 in Hv0'. injection Hv0' as <-.
  destruct Hcase as [(_ & _ & Hz & He) | (_ & Hair & _)].
  - split; [exact Hz |]. rewrite He, py_max_Rmax.
    set (E0 := 0.5 * m0 * v0 ^ 2 / (4.184 * 10 ^ 12)).
    set (Eb := 0.5 * mb * vb ^ 2 / (4.184 * 10 ^ 12)).
    pose proof (Rmax_l Eb (E0 - Eb)). pose proof (Rmax_r Eb (E0 - Eb)). lra.
  - rewrite Hair in Hkind. discriminate.
Qed.

Lemma cratering_energy_at_least_half_witness :
  exists o,
    analyse_outcome {[0%nat := one_row_dedz]} 0%nat = Ok o
    /\ burst_altitude o = 0
    /\ 0.5 * 2 * 2 ^ 2 / (4.184 * 10 ^ 12) / 2 <= burst_energy o.
Proof.
  assert (Hrun : analyse_outcome {[0%nat := one_row_dedz]} 0%nat
                 = Ok {| outcome := "Cratering";
                         burst_peak_dedz := 0;
                         burst_altitude := 0;
                         burst_distance := 0;
                         burst_energy :=
                           py_max (0.5 * 2 * 2 ^ 2 / (4.184 * 10 ^ 12))
                             (0.5 * 2 * 2 ^ 2 / (4.184 * 10 ^ 12)
                              - 0.5 * 2 * 2 ^ 2 / (4.184 * 10 ^ 12)) |}).
  { unfold analyse_outcome, deref. rewrite lookup_singleton_eq.
    reflexivity. }
  eexists. split; [exact Hrun |].
  apply (cratering_energy_at_least_half {[0%nat := one_row_dedz]} 0%nat _
           one_row_dedz [2] [2] 2 2 Hrun);
    [apply lookup_singleton_eq | reflexivity ..].
Defined.

(** X7. On a table of one row (a trajectory that ended in its first step)
    [analyse_outcome] reports ["Cratering"] at altitude 0, with the one
    [dedz] and [distance] entries and the burst energy
    [max(E0, 0)] for [E0 = 0.5 * mass[0] * velocity[0]^2 / 4.184e12]; the
    [altitude] column is not read. *)
Theorem analyse_outcome_one_row (sigma : store) (result : loc)
    (df : DataFrame) (d m v x : R) :
  sigma !! result = Some df ->
  nrows df = 1%nat ->
  assoc "dedz" (columns df) = Some [d] ->
  assoc "mass" (columns df) = Some [m] ->
  assoc "velocity" (columns df) = Some [v] ->
  assoc "distance" (columns df) = Some [x] ->
  analyse_outcome sigma result =
    Ok {| outcome := "Cratering";
          burst_peak_dedz := d;
          burst_altitude := 0;
          burst_distance := x;
          burst_energy := Rmax (0.5 * m * v ^ 2 / (4.184 * 10 ^ 12)) 0 |}.
Proof.
  intros Hdf Hn Hd Hm Hv Hx.
  unfold analyse_outcome, deref. rewrite Hdf. cbn [bind].
  rewrite (getitem_some _ _ _ Hd). cbn [bind idxmax argmax_from].
  rewrite (getitem_some _ _ _ Hm). cbn [bind].
  rewrite (getitem_some _ _ _ Hv). cbn [bind].
  rewrite Hn. cbn [at_label lookup list_lookup bind Z.of_nat Z.eqb Z.sub].
  simpl.
  rewrite (getitem_some _ _ _ Hx). simpl.
  rewrite py_max_Rmax. do 3 f_equal. apply Rminus_diag_eq. reflexivity.
Qed.

Lemma analyse_outcome_one_row_witness :
  analyse_outcome {[0%nat := one_row_dedz]} 0%nat =
    Ok {| outcome := "Cratering";
          burst_peak_dedz := 0;
          burst_altitude := 0;
          burst_distance := 0;
          burst_energy := Rmax (0.5 * 2 * 2 ^ 2 / (4.184 * 10 ^ 12)) 0 |}.
Proof.
  apply (analyse_outcome_one_row {[0%nat := one_row_dedz]} 0%nat
           one_row_dedz 0 2 2 0);
    [apply lookup_singleton_eq | reflexivity ..].
Defined.

(** ** The returned table as an invariant of the loop *)

(** [solve_atmospheric_entry_run_with], with the columns of the returned
    table read off the state [s0] that the last run of the body started
    from. *)
Lemma solve_atmospheric_entry_table_with (J : Attrs -> Prop) (fuel : nat)
    (self : Planet) (s : Attrs)
    (radius0 velocity0 density0 strength0 angle0 init_altitude dt : R)
    (radians : bool) (backend : string) (r : Solved) :
  let theta0 := if negb radians then angle0 / 180 * PI else angle0 in
  let inv := loop_inv init_altitude strength0 density0 velocity0
               (4 / 3 * PI * radius0 ^ 3 * density0) theta0
               init_altitude 0 radius0 0 in
  J (initial_lists (begin_run s strength0 density0) radius0 velocity0
       theta0 init_altitude) ->
  (forall s1, inv s1 -> J s1 ->
     J (body_of (snd (choose_solver backend)) self dt s1)) ->
  solve_atmospheric_entry fuel self s radius0 velocity0 density0 strength0
    angle0 init_altitude dt radians backend = Some r ->
  exists s0,
    inv s0 /\ J s0
    /\ attrs r = body_of (snd (choose_solver backend)) self dt s0
    /\ columns (frame r) =
       [("velocity"%string, velocity s0); ("mass"%string, mass s0);
        ("angle"%string,
         if negb radians then map (fun i => i / PI * 180) (angle s0)
         else angle s0);
        ("altitude"%string, altitude s0); ("distance"%string, distance s0);
        ("radius"%string, radius s0); ("time"%string, alltimestep s0)]
    /\ nrows (frame r) = length (distance s0).
Proof.
  intros theta0 inv Hinit Hstep Hrun.
  destruct (solve_atmospheric_entry_run_with J _ _ _ _ _ _ _ _ _ _ _ _ _
              Hinit Hstep Hrun) as (s0 & Hinv & HJ & Hattrs & Hframe).
  exists s0. split; [exact Hinv |]. split; [exact HJ |].
  split; [exact Hattrs |].
  destruct (body_of_one_row_more (snd (choose_solver backend)) self dt s0)
    as (s1 & v & m & z & theta & x & rr & t & Hbody & Hsame & _).
  rewrite <- Hattrs in Hbody.
  destruct (result_frame_columns radians s1 v m z theta x rr t) as [Hc Hn].
  destruct Hsame as (Ev & Em & Ea & Ez & Ex & Er & Et & _).
  destruct Hinv as ((n & _ & Hlen) & _).
  destruct Hlen as (Lv & _ & _ & _ & Lx & _).
  rewrite Hframe, Hbody, Hc, Hn, Ev, Em, Ea, Ez, Ex, Er, Et.
  split; [reflexivity | congruence].
Qed.

Lemma solve_atmospheric_entry_table (fuel : nat)
    (self : Planet) (s : Attrs)
    (radius0 velocity0 density0 strength0 angle0 init_altitude dt : R)
    (radians : bool) (backend : string) (r : Solved) :
  solve_atmospheric_entry fuel self s radius0 velocity0 density0 strength0
    angle0 init_altitude dt radians backend = Some r ->
  exists s0,
    loop_inv init_altitude strength0 density0 velocity0
      (4 / 3 * PI * radius0 ^ 3 * density0)
      (if negb radians then angle0 / 180 * PI else angle0)
      init_altitude 0 radius0 0 s0
    /\ attrs r = body_of (snd (choose_solver backend)) self dt s0
    /\ columns (frame r) =
       [("velocity"%string, velocity s0); ("mass"%string, mass s0);
        ("angle"%string,
         if negb radians then map (fun i => i / PI * 180) (angle s0)
         else angle s0);
        ("altitude"%string, altitude s0); ("distance"%string, distance s0);
        ("radius"%string, radius s0); ("time"%string, alltimestep s0)]
    /\ nrows (frame r) = length (distance s0).
Proof.
  intros Hrun.
  destruct (solve_atmospheric_entry_table_with (fun _ => True) _ _ _ _ _ _ _
              _ _ _ _ _ _ I (fun _ _ _ => I) Hrun)
    as (s0 & Hinv & _ & Hrest).
  eauto.
Qed.


Lemma demo_frame_columns (out : list string) :
  columns (frame (demo_solved out)) =
  [("velocity"%string, [1]); ("mass"%string, [4 / 3 * PI * 1 ^ 3 * 1]);
   ("angle"%string, [90 / 180 * PI / PI * 180]);
   ("altitude"%string, [1]); ("distance"%string, [0]);
   ("radius"%string, [1]); ("time"%string, [0])].
Proof.
  unfold demo_solved, demo_attrs, FE_body.
  destruct (burst_test _ _ _ _ _) as [bp drdt]. reflexivity.
Qed.



(** ** The two solvers integrate the same equations *)

(** X9. The body of the forward Euler loop, which computes the derivatives
    in line, is one explicit Euler step along what [calculator_rk4] returns
    at the last row: the same six derivatives and the same update of the
    burst index. *)
Theorem FE_body_is_Euler_step_of_calculator_rk4 (self : Planet) (dt : R)
    (s : Attrs) :
  FE_body self dt s =
  let '(s1, (dthetadt, drdt, dzdt, dvdt, dmdt, dxdt)) :=
    calculator_rk4 self s (last_row s) in
  append_row s1
    (dvdt * dt + py_last (velocity s)) (dmdt * dt + py_last (mass s))
    (dzdt * dt + py_last (altitude s)) (dthetadt * dt + py_last (angle s))
    (dxdt * dt + py_last (distance s)) (drdt * dt + py_last (radius s))
    (dt + py_last (alltimestep s)).
Proof.
  unfold FE_body, calculator_rk4, last_row.
  destruct (burst_test self s (rhoa self (py_last (altitude s)))
              (rhoa self (py_last (altitude s)) * py_last (velocity s) ^ 2)
              (py_last (velocity s))) as [bp drdt].
  reflexivity.
Qed.

(** ** The burst index and the radius *)

Lemma calculator_rk4_burst (self : Planet) (s : Attrs) (y : vec6) :
  let s1 := fst (calculator_rk4 self s y) in
  (burstpoint s1 = burstpoint s
   \/ (burstpoint s = (-1)%Z
       /\ burstpoint s1 = Z.of_nat (length (distance s))))
  /\ (burstpoint s1 = (-1)%Z ->
      burstpoint s = (-1)%Z /\ rad_of (snd (calculator_rk4 self s y)) = 0).
Proof.
  destruct y as [[[[[theta r] z] v] m] x].
  unfold calculator_rk4, burst_test.
  destruct (Rgt_dec (rhoa self z * v ^ 2) (strength s)); simpl.
  - destruct (burstpoint s =? -1)%Z eqn:Hbp.
    + apply Z.eqb_eq in Hbp. split; [right; auto | lia].
    + apply Z.eqb_neq in Hbp. split; [left; reflexivity | contradiction].
  - split; [left; reflexivity | auto].
Qed.

Lemma RK4_helper_burst (self : Planet) (s : Attrs) (dt : R) :
  let s1 := fst (RK4_helper self s dt) in
  (burstpoint s1 = burstpoint s
   \/ (burstpoint s = (-1)%Z
       /\ burstpoint s1 = Z.of_nat (length (distance s))))
  /\ (burstpoint s1 = (-1)%Z ->
      burstpoint s = (-1)%Z /\ rad_of (snd (RK4_helper self s dt)) = 0).
Proof.
  unfold RK4_helper.
  set (y := (py_last (angle s), py_last (radius s),
             py_last (altitude s), py_last (velocity s),
             py_last (mass s), py_last (distance s))).
  pose proof (calculator_rk4_burst self s y) as [B1 N1].
  pose proof (calculator_rk4_effect self s y) as [R1 _].
  destruct (calculator_rk4 self s y) as [s1 k1]. cbn [fst snd] in *.
  set (y2 := vadd y (vscale (0.5 * dt) k1)) in *.
  pose proof (calculator_rk4_burst self s1 y2) as [B2 N2].
  pose proof (calculator_rk4_effect self s1 y2) as [R2 _].
  destruct (calculator_rk4 self s1 y2) as [s2 k2]. cbn [fst snd] in *.
  set (y3 := vadd y (vscale (0.5 * dt) k2)) in *.
  pose proof (calculator_rk4_burst self s2 y3) as [B3 N3].
  pose proof (calculator_rk4_effect self s2 y3) as [R3 _].
  destruct (calculator_rk4 self s2 y3) as [s3 k3]. cbn [fst snd] in *.
  set (y4 := vadd y (vscale dt k3)) in *.
  pose proof (calculator_rk4_burst self s3 y4) as [B4 N4].
  destruct (calculator_rk4 self s3 y4) as [s4 k4]. cbn [fst snd] in *.
  assert (D1 : distance s1 = distance s) by apply R1.
  assert (D2 : distance s2 = distance s1) by apply R2.
  assert (D3 : distance s3 = distance s2) by apply R3.
  rewrite D3, D2, D1 in B4. rewrite D2, D1 in B3. rewrite D1 in B2.
  split; [lia |].
  intros H4. destruct (N4 H4) as [H3 Z4]. destruct (N3 H3) as [H2 Z3].
  destruct (N2 H2) as [H1 Z2]. destruct (N1 H1) as [H0 Z1].
  split; [exact H0 |].
  destruct k1 as [[[[[a1 b1] c1] d1] m1] x1].
  destruct k2 as [[[[[a2 b2] c2] d2] m2] x2].
  destruct k3 as [[[[[a3 b3] c3] d3] m3] x3].
  destruct k4 as [[[[[a4 b4] c4] d4] m4] x4].
  simpl in *. subst. lra.
Qed.

(** What one run of a loop body does to the burst index, and to the radius
    when the index stays unset. *)
Lemma body_of_burst (k : Solver) (self : Planet) (dt : R) (s : Attrs) :
  let s' := body_of k self dt s in
  (burstpoint s' = burstpoint s
   \/ (burstpoint s = (-1)%Z
       /\ burstpoint s' = Z.of_nat (length (distance s))))
  /\ (burstpoint s' = (-1)%Z ->
      burstpoint s = (-1)%Z /\ radius s' = radius s ++ [py_last (radius s)]).
Proof.
  destruct k; simpl.
  - unfold FE_body, burst_test.
    destruct (Rgt_dec
                (rhoa self (py_last (altitude s)) * py_last (velocity s) ^ 2)
                (strength s)); simpl.
    + destruct (burstpoint s =? -1)%Z eqn:Hbp.
      * apply Z.eqb_eq in Hbp. split; [right; auto | lia].
      * apply Z.eqb_neq in Hbp. split; [left; reflexivity | contradiction].
    + split; [left; reflexivity |]. intros Hbp. split; [exact Hbp |].
      do 2 f_equal. lra.
  - unfold RK4_body.
    pose proof (RK4_helper_burst self s dt) as [B N].
    pose proof (RK4_helper_effect self s dt) as [Hrows _].
    destruct (RK4_helper self s dt) as [s1 [[[[[ctheta cr] cz] cv] cm] cx]].
    cbn [fst snd] in *. simpl.
    destruct Hrows as (_ & _ & _ & _ & _ & Er & _).
    split; [exact B |]. intros Hbp. destruct (N Hbp) as [H0 Hcr].
    split; [exact H0 |]. simpl in Hcr. rewrite Er, Hcr.
    do 2 f_equal. lra.
Qed.

(** X10. After a call that returns, the burst index [self.burstpoint] is
    [-1] (no evaluation of the derivatives found the ram pressure above the
    strength) or a number between 1 and the number of rows of the returned
    table: it is never 0, and it never points beyond the row that the
    solver dropped. *)
Theorem burstpoint_range (fuel : nat) (self : Planet) (s : Attrs)
    (radius0 velocity0 density0 strength0 angle0 init_altitude dt : R)
    (radians : bool) (backend : string) (r : Solved) :
  solve_atmospheric_entry fuel self s radius0 velocity0 density0 strength0
    angle0 init_altitude dt radians backend = Some r ->
  burst_in_range (burstpoint (attrs r)) (nrows (frame r)).
Proof.
  intros Hrun.
  destruct (solve_atmospheric_entry_table_with
              (fun s1 => burst_in_range (burstpoint s1)
                           (length (distance s1)))
              fuel self s radius0 velocity0 density0 strength0 angle0
              init_altitude dt radians backend r)
    as (s0 & Hinv & HJ & Hattrs & _ & Hn); [| | exact Hrun |].
  - left. reflexivity.
  - intros s1 ((n & Hn & Hlen) & _) HJ.
    destruct (body_of_burst (snd (choose_solver backend)) self dt s1)
      as [B _].
    destruct (body_of_one_row_more (snd (choose_solver backend)) self dt s1)
      as (s2 & v & m & z & theta & x & rr & t & Hbody & Hsame & _).
    assert (Hlen' : length (distance
                      (body_of (snd (choose_solver backend)) self dt s1))
                    = S (length (distance s1))).
    { rewrite Hbody. simpl. rewrite length_app. simpl.
      destruct Hsame as (_ & _ & _ & _ & Ex & _). rewrite Ex. lia. }
    destruct Hlen as (_ & _ & _ & _ & Lx & _).
    unfold burst_in_range in *. rewrite Hlen'. lia.
  - destruct Hinv as ((n & Hn1 & Hlen) & _).
    destruct Hlen as (_ & _ & _ & _ & Lx & _).
    destruct (body_of_burst (snd (choose_solver backend)) self dt s0)
      as [B _].
    rewrite Hattrs, Hn. unfold burst_in_range in *. lia.
Qed.

Lemma burstpoint_range_witness :
  burst_in_range (burstpoint (attrs (demo_solved [])))
    (nrows (frame (demo_solved []))).
Proof.
  exact (burstpoint_range 1 earth fresh_attrs 1 1 1 1e5 90 1 1 false "FE"
           (demo_solved []) demo_run).
Defined.

(** X11. If the burst index is still [-1] after a call that returns, the
    asteroid never deformed: every entry of the [radius] column of the
    returned table is the radius that was passed in. *)
Theorem radius_constant_without_burst (fuel : nat) (self : Planet)
    (s : Attrs)
    (radius0 velocity0 density0 strength0 angle0 init_altitude dt : R)
    (radians : bool) (backend : string) (r : Solved) (i : nat) (x : R) :
  solve_atmospheric_entry fuel self s radius0 velocity0 density0 strength0
    angle0 init_altitude dt radians backend = Some r ->
  burstpoint (attrs r) = (-1)%Z ->
  cell (frame r) "radius" i = Some x ->
  x = radius0.
Proof.
  intros Hrun Hbp Hcell.
  destruct (solve_atmospheric_entry_table_with
              (fun s1 => burstpoint s1 = (-1)%Z ->
                         forall j u, radius s1 !! j = Some u -> u = radius0)
              fuel self s radius0 velocity0 density0 strength0 angle0
              init_altitude dt radians backend r)
    as (s0 & _ & HJ & Hattrs & Hc & _); [| | exact Hrun |].
  - intros _ [|j] u Hu; [| discriminate]. now injection Hu as <-.
  - intros s1 ((n & Hn & Hlen) & _) HJ Hbp1.
    destruct (body_of_burst (snd (choose_solver backend)) self dt s1)
      as [_ N].
    destruct (N Hbp1) as [Hbp0 Hrad]. rewrite Hrad.
    destruct Hlen as (_ & _ & _ & _ & _ & Lr & _).
    intros j u.
    destruct (Nat.lt_ge_cases j (length (radius s1))) as [Hlt | Hge].
    + rewrite lookup_app_l by exact Hlt. now apply HJ.
    + rewrite lookup_app_r by exact Hge.
      destruct (j - length (radius s1))%nat as [|d]; [| discriminate].
      intros Hu. injection Hu as <-.
      apply (HJ Hbp0 (length (radius s1) - 1)%nat).
      apply py_last_lookup. lia.
  - destruct (body_of_burst (snd (choose_solver backend)) self dt s0)
      as [_ N].
    rewrite Hattrs in Hbp. destruct (N Hbp) as [Hbp0 _].
    unfold cell in Hcell. rewrite Hc in Hcell. simpl in Hcell.
    now apply (HJ Hbp0 i).
Qed.

Lemma demo_attrs_burstpoint : burstpoint demo_attrs = (-1)%Z.
Proof.
  unfold demo_attrs, FE_body, burst_test.
  destruct (Rgt_dec _ _) as [Hgt | _]; [exfalso | reflexivity].
  revert Hgt. simpl. unfold py_last. simpl.
  match goal with
  | |- context [exp ?a] =>
      assert (Hexp : exp a < exp 0) by (apply exp_increasing; lra);
      rewrite exp_0 in Hexp;
      pose proof (exp_pos a); set (e := exp a) in *
  end.
  intros Hgt. lra.
Qed.

Lemma radius_constant_without_burst_witness :
  cell (frame (demo_solved [])) "radius" 0 = Some 1 /\ 1 = 1.
Proof.
  assert (Hcell : cell (frame (demo_solved [])) "radius" 0 = Some 1)
    by (unfold cell; rewrite demo_frame_columns; reflexivity).
  split; [exact Hcell |].
  exact (radius_constant_without_burst 1 earth fresh_attrs 1 1 1 1e5 90 1 1
           false "FE" (demo_solved []) 0 1 demo_run demo_attrs_burstpoint
           Hcell).
Defined.

(** ** The radius never shrinks *)








(** ** Runs that end in their first step *)

Lemma one_step_run (fuel : nat) (self : Planet) (s : Attrs)
    (radius0 velocity0 density0 strength0 angle0 init_altitude dt : R)
    (radians : bool) (backend : string) :
  let theta0 := if negb radians then angle0 / 180 * PI else angle0 in
  let s1 := body_of (snd (choose_solver backend)) self dt
              (initial_lists (begin_run s strength0 density0) radius0
                 velocity0 theta0 init_altitude) in
  should_break s1 init_altitude = true ->
  solve_atmospheric_entry (S fuel) self s radius0 velocity0 density0
    strength0 angle0 init_altitude dt radians backend
  = Some (mkSolved (fst (choose_solver backend)) s1
            (result_frame radians s1))
  /\ nrows (result_frame radians s1) = 1%nat.
Proof.
  intros theta0 s1 Hbreak. split.
  - unfold solve_atmospheric_entry. fold theta0.
    destruct (choose_solver backend) as [out k]. cbn [fst snd] in *.
    rewrite run_solver_do_while. cbn [do_while]. fold s1.
    now rewrite Hbreak.
  - unfold s1.
    destruct (body_of_one_row_more (snd (choose_solver backend)) self dt
                (initial_lists (begin_run s strength0 density0) radius0
                   velocity0 theta0 init_altitude))
      as (s2 & v & m & z & theta & x & rr & t & -> & Hsame & _).
    destruct (result_frame_columns radians s2 v m z theta x rr t)
      as [_ ->].
    destruct Hsame as (-> & _). reflexivity.
Qed.

Lemma FE_first_step_break (self : Planet) (dt : R) (s : Attrs)
    (radius0 velocity0 theta0 init_altitude : R) :
  velocity0 * sin theta0 * dt <= 0 ->
  should_break
    (FE_body self dt
       (initial_lists s radius0 velocity0 theta0 init_altitude))
    init_altitude = true.
Proof.
  intros Hup. apply should_break_terminated. do 4 right.
  unfold FE_body.
  destruct (burst_test _ _ _ _ _) as [bp drdt]. simpl.
  unfold py_last. simpl. nra.
Qed.

Lemma RK4_zero_step_break (self : Planet) (s : Attrs)
    (radius0 velocity0 theta0 init_altitude : R) :
  should_break
    (RK4_body self 0 0
       (initial_lists s radius0 velocity0 theta0 init_altitude))
    init_altitude = true.
Proof.
  apply should_break_last_row. do 4 right.
  rewrite last_row_RK4_body. unfold rk4_change.
  set (f := rates self _ _).
  set (y := last_row _).
  assert (Hy : alt_of y = init_altitude) by reflexivity.
  destruct (f y) as [[[[[a1 b1] c1] d1] m1] x1].
  destruct (f _) as [[[[[a2 b2] c2] d2] m2] x2].
  destruct (f _) as [[[[[a3 b3] c3] d3] m3] x3].
  destruct (f _) as [[[[[a4 b4] c4] d4] m4] x4].
  destruct y as [[[[[theta r] z] v] m] x]. simpl in *. lra.
Qed.



(** X14. With a time step of 0 the loop of either solver ends after its
    first run. For a planet with positive constants and the exponential or
    the constant atmosphere, and a positive radius, velocity, density and
    initial altitude, the call returns for every iteration budget of at
    least one step, with a table of exactly one row. *)
Theorem zero_time_step_returns_one_row (fuel : nat) (self : Planet)
    (s : Attrs)
    (radius0 velocity0 density0 strength0 angle0 init_altitude : R)
    (radians : bool) (backend : string) :
  valid_planet self -> exponential_or_constant self ->
  0 < radius0 -> 0 < velocity0 -> 0 < density0 -> 0 < init_altitude ->
  exists r,
    solve_atmospheric_entry (S fuel) self s radius0 velocity0 density0
      strength0 angle0 init_altitude 0 radians backend = Some r
    /\ nrows (frame r) = 1%nat.
Proof.
  intros _ _ _ _ _ _.
  destruct (one_step_run fuel self s radius0 velocity0 density0 strength0
              angle0 init_altitude 0 radians backend) as [Hrun Hn].
  - destruct (snd (choose_solver backend)); simpl.
    + apply FE_first_step_break. lra.
    + apply RK4_zero_step_break.
  - eexists. split; [exact Hrun | exact Hn].
Qed.

Lemma zero_time_step_returns_one_row_witness :
  exists r,
    solve_atmospheric_entry 1 earth fresh_attrs 1 1 1 1e5 90 1 0 false "RK4"
      = Some r
    /\ nrows (frame r) = 1%nat.
Proof.
  apply (zero_time_step_returns_one_row 0 earth fresh_attrs
           1 1 1 1e5 90 1 false "RK4"); try lra.
  - unfold valid_planet. simpl. repeat split; lra.
  - left. intros x. reflexivity.
Defined.

(** ** Every returned row is a state of a falling body *)

(** X15. For a positive radius, velocity, density and initial altitude,
    every row of the returned table has a positive mass, radius and
    velocity, and an altitude above 0 and not above the initial one. *)
Theorem returned_rows_are_positive (fuel : nat) (self : Planet) (s : Attrs)
    (radius0 velocity0 density0 strength0 angle0 init_altitude dt : R)
    (radians : bool) (backend : string) (r : Solved)
    (i : nat) (z m x v : R) :
  0 < radius0 -> 0 < velocity0 -> 0 < density0 -> 0 < init_altitude ->
  solve_atmospheric_entry fuel self s radius0 velocity0 density0 strength0
    angle0 init_altitude dt radians backend = Some r ->
  cell (frame r) "altitude" i = Some z ->
  cell (frame r) "mass" i = Some m ->
  cell (frame r) "radius" i = Some x ->
  cell (frame r) "velocity" i = Some v ->
  0 < z <= init_altitude /\ 0 < m /\ 0 < x /\ 0 < v.
Proof.
  intros Hr0 Hv0 Hd0 Hz0 Hrun Hz Hm Hx Hv.
  destruct (solve_atmospheric_entry_table _ _ _ _ _ _ _ _ _ _ _ _ _ Hrun)
    as (s0 & Hinv & _ & Hc & _).
  unfold cell in Hz, Hm, Hx, Hv. rewrite Hc in Hz, Hm, Hx, Hv.
  simpl in Hz, Hm, Hx, Hv.
  destruct Hinv as (_ & Hfirst & Halive & _).
  destruct i as [|i].
  - destruct Hfirst as (Fv & Fm & _ & Fz & _ & Fr & _).
    rewrite Fz in Hz. rewrite Fm in Hm. rewrite Fr in Hx. rewrite Fv in Hv.
    injection Hz as <-. injection Hm as <-. injection Hx as <-.
    injection Hv as <-.
    repeat split; try lra.
    pose proof PI_RGT_0.
    assert (0 < radius0 ^ 3) by (apply pow_lt; exact Hr0).
    apply Rmult_lt_0_compat; [| lra].
    apply Rmult_lt_0_compat; [| assumption].
    apply Rmult_lt_0_compat; lra.
  - pose proof (Halive (S i) z m x v ltac:(lia) Hz Hm Hx Hv) as Hal.
    unfold terminated in Hal.
    repeat split; apply Rnot_le_lt || apply Rlt_le, Rnot_ge_lt; tauto.
Qed.

Lemma returned_rows_are_positive_witness :
  0 < 1 <= 1 /\ 0 < 4 / 3 * PI * 1 ^ 3 * 1 /\ 0 < 1 /\ 0 < 1.
Proof.
  apply (returned_rows_are_positive 1 earth fresh_attrs 1 1 1 1e5 90 1 1
           false "FE" (demo_solved []) 0 1 (4 / 3 * PI * 1 ^ 3 * 1) 1 1);
    try lra; try exact demo_run;
    unfold cell; rewrite demo_frame_columns; reflexivity.
Defined.

(** ** Degrees and radians *)

(** X16. The flag [radians] only changes units. A call with the angle in
    degrees that returns does what the call with [radians=True] on the
    converted angle [angle / 180 * pi] does: the same printed lines, the same
    attributes left on the object and the same table, up to the [angle]
    column, which holds the same angles in degrees instead of radians. *)
Theorem radians_flag_only_changes_units (fuel : nat) (self : Planet)
    (s : Attrs)
    (radius0 velocity0 density0 strength0 angle0 init_altitude dt : R)
    (backend : string) (r : Solved) :
  solve_atmospheric_entry fuel self s radius0 velocity0 density0 strength0
    angle0 init_altitude dt false backend = Some r ->
  exists r',
    solve_atmospheric_entry fuel self s radius0 velocity0 density0 strength0
      (angle0 / 180 * PI) init_altitude dt true backend = Some r'
    /\ printed r' = printed r /\ attrs r' = attrs r
    /\ nrows (frame r') = nrows (frame r)
    /\ (forall name, name <> "angle"%string ->
          assoc name (columns (frame r'))
          = assoc name (columns (frame r)))
    /\ (forall i a, cell (frame r') "angle" i = Some a ->
          cell (frame r) "angle" i = Some (a / PI * 180)).
Proof.
  intros Hrun.
  pose proof (solve_atmospheric_entry_run _ _ _ _ _ _ _ _ _ _ _ _ _ Hrun)
    as (s0 & _ & Hattrs & _ & _ & Hframe).
  destruct (body_of_one_row_more (snd (choose_solver backend)) self dt s0)
    as (s1 & v & m & z & theta & x & rr & t & Hbody & _).
  rewrite <- Hattrs in Hbody.
  unfold solve_atmospheric_entry in *. cbn [negb] in *.
  destruct (choose_solver backend) as [out k].
  destruct (run_solver k fuel self (begin_run s strength0 density0) radius0
              velocity0 (angle0 / 180 * PI) init_altitude dt) as [s'|];
    [| discriminate].
  injection Hrun as <-. cbn [attrs frame printed] in *.
  eexists. split; [reflexivity |]. cbn [attrs frame printed].
  split; [reflexivity |]. split; [reflexivity |].
  destruct (result_frame_columns true s1 v m z theta x rr t) as [Ct Nt].
  destruct (result_frame_columns false s1 v m z theta x rr t) as [Cf Nf].
  rewrite Hbody. split; [congruence |]. split.
  - intros name Hname. rewrite Ct, Cf. cbn [negb assoc].
    destruct (String.eqb_spec "angle" name) as [<- | _];
      [contradiction |].
    reflexivity.
  - intros i a. unfold cell. rewrite Ct, Cf. simpl.
    intros Ha. rewrite list_lookup_fmap, Ha. reflexivity.
Qed.

Lemma radians_flag_only_changes_units_witness :
  exists r',
    solve_atmospheric_entry 1 earth fresh_attrs 1 1 1 1e5
      (90 / 180 * PI) 1 1 true "FE" = Some r'
    /\ printed r' = printed (demo_solved [])
    /\ attrs r' = attrs (demo_solved [])
    /\ nrows (frame r') = nrows (frame (demo_solved []))
    /\ (forall name, name <> "angle"%string ->
          assoc name (columns (frame r'))
          = assoc name (columns (frame (demo_solved []))))
    /\ (forall i a, cell (frame r') "angle" i = Some a ->
          cell (frame (demo_solved [])) "angle" i = Some (a / PI * 180)).
Proof.
  exact (radians_flag_only_changes_units 1 earth fresh_attrs 1 1 1 1e5 90 1
           1 "FE" (demo_solved []) demo_run).
Defined.

(** ** The atmosphere that the constructor builds *)





(** ** One Runge-Kutta step *)

(** X19. The increments that [RK4_helper] returns are a function of the
    last row, the strength and the density alone: the burst index, the
    earlier rows and what earlier evaluations did have no influence on
    them. *)
Theorem RK4_helper_depends_on_last_row (self : Planet) (s s' : Attrs)
    (dt : R) :
  last_row s = last_row s' ->
  strength s = strength s' -> density s = density s' ->
  snd (RK4_helper self s dt) = snd (RK4_helper self s' dt).
Proof.
  intros Hrow Hst Hd.
  destruct (RK4_helper_change self s dt) as [-> _].
  destruct (RK4_helper_change self s' dt) as [-> _].
  now rewrite Hrow, Hst, Hd.
Qed.

Lemma RK4_helper_depends_on_last_row_witness :
  snd (RK4_helper earth
         (initial_lists (begin_run fresh_attrs 1e5 1) 1 1 1 1) 1)
  = snd (RK4_helper earth
           (append_row
              (record_eval (initial_lists (begin_run fresh_attrs 1e5 1)
                              2 2 2 2) 0 0 7)
              1 (4 / 3 * PI * 1 ^ 3 * 1) 1 1 0 1 1) 1).
Proof.
  apply (RK4_helper_depends_on_last_row earth
           (initial_lists (begin_run fresh_attrs 1e5 1) 1 1 1 1)
           (append_row
              (record_eval (initial_lists (begin_run fresh_attrs 1e5 1)
                              2 2 2 2) 0 0 7)
              1 (4 / 3 * PI * 1 ^ 3 * 1) 1 1 0 1 1) 1); reflexivity.
Defined.
